(** * The web generator's randomizer interface

    A shallow embedding of [generator/randomizerinterface.py], the adapter
    between the Django forms of the web generator and the Jets of Time
    randomizer library, together with the properties claimed for it.

    Layout: Python values (strings, dictionaries, exceptions), the library
    interface, the world the methods run in, the methods of
    [RandomizerInterface] in source order, and then the theorems. *)

From Stdlib Require Import ZArith NArith String Ascii List Bool Lia.
From stdpp Require Import base decidable option list gmap strings pretty.

Local Open Scope Z_scope.
Local Open Scope list_scope.

(** ** Python strings *)

(** A Python [str] is a sequence of Unicode code points; [len] counts code
    points, [+] concatenates and [==] compares the sequences. *)
Abbreviation codepoint := N.
Abbreviation str := (list codepoint).

(** A source literal, which is ASCII throughout this file. *)
Definition lit (s : string) : str :=
  map N_of_ascii (list_ascii_of_string s).

(** [str(n)] and [f"{n}"] of a non-negative integer. *)
Definition str_of_N (n : N) : str := lit (pretty n).

(** The Unicode character database of the interpreter.  The tests below
    are decided in this file for ASCII and left to the database for the
    code points from 128 on. *)
Class Unicode := {
  uni_isalnum : codepoint -> bool;
  uni_isspace : codepoint -> bool;
  uni_isdecimal : codepoint -> bool;
  (** [str.lower], whose result can depend on the neighbouring characters *)
  str_lower : str -> str
}.

Definition between (lo hi c : N) : bool := ((lo <=? c) && (c <=? hi))%N.

Definition ascii_isalnum (c : codepoint) : bool :=
  between 48 57 c || between 65 90 c || between 97 122 c.

(** Tab, LF, VT, FF, CR, the four separators FS GS RS US, and space. *)
Definition ascii_isspace (c : codepoint) : bool :=
  between 9 13 c || between 28 31 c || (c =? 32)%N.

Definition ascii_isdecimal (c : codepoint) : bool := between 48 57 c.

Section Characters.
Context {U : Unicode}.

Definition char_isalnum (c : codepoint) : bool :=
  if (c <? 128)%N then ascii_isalnum c else uni_isalnum c.

Definition char_isspace (c : codepoint) : bool :=
  if (c <? 128)%N then ascii_isspace c else uni_isspace c.

Definition char_isdecimal (c : codepoint) : bool :=
  if (c <? 128)%N then ascii_isdecimal c else uni_isdecimal c.

(** [s.isalnum()]: at least one character, and all of them alphanumeric. *)
Definition isalnum (s : str) : bool :=
  match s with
  | [] => false
  | _ => forallb char_isalnum s
  end.
End Characters.

(** ** The two validation helpers *)

(** The two-argument [min] and [max] keep their first argument unless the
    second is strictly smaller, respectively strictly larger. *)
Definition py_min (a b : Z) : Z := if b <? a then b else a.
Definition py_max (a b : Z) : Z := if b >? a then b else a.

(** [clamp], lines 612-614. *)
Definition clamp (value min_val max_val : Z) : Z :=
  py_max min_val (py_min value max_val).

Section CharacterName.
Context {U : Unicode}.

(** [get_character_name], lines 596-610; [None] is the absent name. *)
Definition get_character_name (name : option str) (default_name : str) : str :=
  match name with
  | None => default_name
  | Some n =>
      if bool_decide (n = [])
         || (5 <? length n)%nat
         || negb (isalnum n)
      then default_name
      else n
  end.
End CharacterName.

(** ** Exceptions and results *)

(** What can leave a method of this file as an exception: the one
    exception class the file declares, the errors the interpreter raises
    for the file's own subscripts, attribute reads and [open], and whatever
    is raised inside code the file only calls (the randomizer library,
    [json], [pathlib]), identified by a description.  The called code does
    not import this module, so [InvalidSettingsException] is not among the
    exceptions it can raise. *)
Inductive exn : Type :=
| InvalidSettingsException (msg : str)
| AttributeError
| KeyError
| IndexError
| TypeError
| FileNotFoundError (path : str)
| ForeignError (what : str).

Inductive res (A : Type) : Type :=
| Ok (a : A)
| Err (e : exn).
Arguments Ok {A} a.
Arguments Err {A} e.

Definition res_bind {A B} (r : res A) (k : A -> res B) : res B :=
  match r with
  | Ok a => k a
  | Err e => Err e
  end.

#[global] Instance res_mret : MRet res := fun A a => Ok a.
#[global] Instance res_mbind : MBind res := fun A B k r => res_bind r k.

(** The result of a call into foreign code. *)
Definition foreign (A : Type) : Type := str + A.

Definition of_foreign {A} (r : foreign A) : res A :=
  match r with
  | inl what => Err (ForeignError what)
  | inr a => Ok a
  end.

(** A loop body run over a sequence, stopping at the first exception. *)
Fixpoint res_fold {A B} (body : A -> B -> res A) (acc : A) (xs : list B) : res A :=
  match xs with
  | [] => Ok acc
  | x :: rest => acc' ← body acc x; res_fold body acc' rest
  end.

(** ** Python dictionaries *)

(** A [dict] keeps its items in insertion order and its keys distinct. *)
Definition pydict (K V : Type) : Type := list (K * V).

Section Dict.
Context {K V : Type} `{EqDecision K}.

Fixpoint dict_get (k : K) (d : pydict K V) : option V :=
  match d with
  | [] => None
  | (k', v) :: rest => if decide (k = k') then Some v else dict_get k rest
  end.

(** [d[k]] *)
Definition dict_item (k : K) (d : pydict K V) : res V :=
  match dict_get k d with
  | Some v => Ok v
  | None => Err KeyError
  end.

(** [d[k] = v]: an existing key keeps its place, a new one goes last. *)
Fixpoint dict_set (k : K) (v : V) (d : pydict K V) : pydict K V :=
  match d with
  | [] => [(k, v)]
  | (k', v') :: rest =>
      if decide (k = k') then (k', v) :: rest else (k', v') :: dict_set k v rest
  end.

Definition dict_keys (d : pydict K V) : list K := map fst d.
Definition dict_items (d : pydict K V) : list (K * V) := d.

(** A dictionary display or comprehension: the items are stored in turn. *)
Definition dict_of_items (items : list (K * V)) : pydict K V :=
  fold_left (fun d kv => dict_set kv.1 kv.2 d) items [].
End Dict.

(** [d[k].append(x)] for a dictionary of lists. *)
Definition dict_append {K V} `{EqDecision K} (k : K) (x : V)
    (d : pydict K (list V)) : res (pydict K (list V)) :=
  l ← dict_item k d; Ok (dict_set k (l ++ [x]) d).

(** ** The randomizer library: types *)

(** The members of [randosettings.GameFlags] that this file names. *)
Inductive GameFlag : Type :=
| FIX_GLITCH | BOSS_RANDO | BOSS_SCALE | ZEAL_END | FAST_PENDANT
| LOCKED_CHARS | UNLOCKED_MAGIC | TAB_TREASURES | CHRONOSANITY | CHAR_RANDO
| HEALING_ITEM_RANDO | GEAR_RANDO | MYSTERY | EPOCH_FAIL | DUPLICATE_CHARS
| DUPLICATE_TECHS | UNLOCKED_SKYGATES | ADD_SUNKEEP_SPOT | ADD_BEKKLER_SPOT
| ADD_CYRUS_SPOT | RESTORE_TOOLS | ADD_OZZIE_SPOT | RESTORE_JOHNNY_RACE
| ADD_RACELOG_SPOT | REMOVE_BLACK_OMEN_SPOT | SPLIT_ARRIS_DOME
| VANILLA_ROBO_RIBBON | VANILLA_DESERT | USE_ANTILIFE | TACKLE_EFFECTS_ON
| STARTERS_SUFFICIENT | BUCKET_LIST | ROCKSANITY | TECH_DAMAGE_RANDO
| VISIBLE_HEALTH | BOSS_SIGHTSCOPE | FAST_TABS | FREE_MENU_GLITCH.

(** The members of [randosettings.ROFlags] and [randosettings.CosmeticFlags]
    that this file names. *)
Inductive ROFlag : Type := BOSS_SPOT_HP | PRESERVE_PARTS.

Inductive CosmeticFlag : Type :=
| REDUCE_FLASH | ZENAN_ALT_MUSIC | DEATH_PEAK_ALT_MUSIC | QUIET_MODE | AUTORUN.

(** The enumerations and identifiers of the library are declared outside
    this file.  The file compares them, uses them as dictionary keys and
    turns them into strings with [str()] or inside an f-string, so that is
    what is asked of them here. *)
Class RandoTypes := {
  (** the value of a flag member: the bit, or bits, it stands for *)
  GF_value : GameFlag -> N;
  CF_value : CosmeticFlag -> N;
  str_GameFlag : GameFlag -> str;
  str_ROFlag : ROFlag -> str;
  (** [str(k) for k in list(E)] for the four plain enumerations *)
  GameMode_strs : list str;
  ShopPrices_strs : list str;
  Difficulty_strs : list str;
  TechOrder_strs : list str;
  str_Difficulty_NORMAL : str;
  str_Difficulty_HARD : str;
  RecruitID : Type;
  CharID : Type;
  KeyItem : Type;
  LocID : Type;
  BossID : Type;
  EnemyID : Type;
  TWIN_BOSS : BossID;
  RecruitID_eq_dec :: EqDecision RecruitID;
  LocID_eq_dec :: EqDecision LocID;
  BossID_eq_dec :: EqDecision BossID;
  EnemyID_eq_dec :: EqDecision EnemyID;
  format_RecruitID : RecruitID -> str;
  format_CharID : CharID -> str;
  str_KeyItem : KeyItem -> str;
  str_LocID : LocID -> str;
  str_BossID : BossID -> str;
  (** the attributes of the library's objects that this file never reads *)
  PCStats : Type;
  SettingsRest : Type;
  ConfigRest : Type;
  RandomizerRest : Type;
  (** a decoded JSON value that is neither a dictionary nor a string *)
  JsonOther : Type
}.

(** A value of a [Flag] class is a bit mask; [member in flags] holds when
    every bit of the member is set, [|] is bitwise or. *)
Definition flags := N.

Definition flag_in (member : N) (fl : flags) : bool :=
  (N.land member fl =? member)%N.

Section Model.
Context {T : RandoTypes}.

(** *** Settings *)

Record BucketSettings := mkBucketSettings {
  num_objectives : Z
}.

Record CharSettings := mkCharSettings {
  names : list str
}.

Record CTOptions := mkCTOptions {
  stereo_audio : bool;
  save_menu_cursor : bool;
  save_battle_cursor : bool;
  skill_item_info : bool;
  consistent_paging : bool;
  battle_speed : Z;
  menu_background : Z;
  battle_msg_speed : Z;
  battle_gauge_style : Z
}.

Record Settings := mkSettings {
  gameflags : flags;
  seed : str;
  cosmetic_flags : flags;
  char_settings : CharSettings;
  ctoptions : CTOptions;
  bucket_settings : BucketSettings;
  settings_rest : SettingsRest
}.

(** *** Config *)

Record Objective := mkObjective { desc : str }.
Record CharRecruit := mkCharRecruit { held_char : CharID }.
Record KeyItemLocation := mkKeyItemLocation {
  getName : str;
  getKeyItem : KeyItem
}.
Record BossPart := mkBossPart { enemy_id : EnemyID }.
Record BossScheme := mkBossScheme { parts : list BossPart }.
Record EnemyStats := mkEnemyStats { name : str }.

Record RandoConfig := mkRandoConfig {
  objectives : list Objective;
  char_assign_dict : pydict RecruitID CharRecruit;
  pcstats : PCStats;
  key_item_locations : list KeyItemLocation;
  boss_assign_dict : pydict LocID BossID;
  boss_data_dict : pydict BossID BossScheme;
  enemy_dict : pydict EnemyID EnemyStats;
  config_rest : ConfigRest
}.

(** *** Objects and references *)

(** A [Settings] object is mutable and is reached through references: the
    caller of a method and the randomizer can hold the same object.  The
    store maps references to the objects they denote; a reference outside
    the store stands for a value that is no [Settings] object, as [None]. *)
Definition ref := positive.
Abbreviation store := (gmap ref Settings).

Definition bytes := list N.

(** The attributes of a [randomizer.Randomizer] that this file reads or
    assigns. *)
Record Randomizer := mkRandomizer {
  settings : option ref;
  config : option RandoConfig;
  has_generated : bool;
  hash_string_bytes : bytes;
  randomizer_rest : RandomizerRest
}.

(** What [json.loads] returns, as far as this file looks into it. *)
#[local] Set Warnings "-register-all".
Inductive json : Type :=
| JStr (s : str)
| JDict (items : list (str * json))
| JOther (v : JsonOther).

(** *** The world a method runs in *)

Record World := mkWorld {
  (** the [Settings] objects alive *)
  heap : store;
  (** [self.randomizer] *)
  self_randomizer : Randomizer;
  (** the files of the machine, by absolute path *)
  files : gmap str bytes;
  (** the working directory of the server process *)
  cwd : str;
  (** [django.conf.settings.BASE_DIR] *)
  BASE_DIR : str;
  (** the draws [random.choice] will make, each an index into its argument *)
  rng : list nat;
  (** [datetime.datetime.now().microsecond] *)
  now_microsecond : N
}.

(** A call returns a value, raises, or is still running when the draws
    that were provided for it are used up. *)
Inductive outcome (A : Type) : Type :=
| Return (a : A) (w : World)
| Raise (e : exn) (w : World)
| OutOfFuel.
Arguments Return {A} a w.
Arguments Raise {A} e w.
Arguments OutOfFuel {A}.

Definition M (A : Type) : Type := World -> outcome A.

Definition M_bind {A B} (m : M A) (k : A -> M B) : M B :=
  fun w =>
    match m w with
    | Return a w' => k a w'
    | Raise e w' => Raise e w'
    | OutOfFuel => OutOfFuel
    end.

#[global] Instance M_mret : MRet M := fun A a w => Return a w.
#[global] Instance M_mbind : MBind M := fun A B k m => M_bind m k.

Definition raise {A} (e : exn) : M A := fun w => Raise e w.

Definition lift {A} (r : res A) : M A :=
  fun w =>
    match r with
    | Ok a => Return a w
    | Err e => Raise e w
    end.

Definition get_world : M World := fun w => Return w w.
Definition put_world (w : World) : M unit := fun _ => Return tt w.

Definition set_heap (h : store) (w : World) : World :=
  mkWorld h (self_randomizer w) (files w) (cwd w) (BASE_DIR w) (rng w)
          (now_microsecond w).
Definition set_self_randomizer (r : Randomizer) (w : World) : World :=
  mkWorld (heap w) r (files w) (cwd w) (BASE_DIR w) (rng w)
          (now_microsecond w).
Definition set_rng (g : list nat) (w : World) : World :=
  mkWorld (heap w) (self_randomizer w) (files w) (cwd w) (BASE_DIR w) g
          (now_microsecond w).

(** ** The randomizer library: functions *)

(** The library calls of this file.  A method of a [Randomizer] sees the
    object and the [Settings] objects and may change both; what the calls
    compute is the library's business and is left open here. *)
Class RandoLib := {
  (** [randomizer.Randomizer(rom, is_vanilla=True, settings=.., config=..)] *)
  new_Randomizer :
    bytes -> option ref -> option RandoConfig -> store ->
    foreign (Randomizer * store);
  set_random_config : Randomizer -> store -> foreign (Randomizer * store);
  lib_generate_rom : Randomizer -> store -> foreign (Randomizer * store);
  get_generated_rom : Randomizer -> store -> foreign bytes;
  (** the three writers get the text written so far and give the new text *)
  write_spoiler_log : Randomizer -> store -> str -> foreign (str * store);
  write_json_spoiler_log : Randomizer -> store -> str -> foreign (str * store);
  write_settings_spoilers : Randomizer -> store -> str -> foreign (str * store);
  (** [randomizer.read_names()], which reads a file of the library *)
  read_names : gmap str bytes -> str -> foreign (list str);
  (** [rset.Settings.from_preset_data], [rset.Settings()] *)
  from_preset_data : str -> foreign Settings;
  new_Settings : Settings;
  get_flag_string : Settings -> foreign str;
  get_character_assignment : PCStats -> CharID -> foreign CharID;
  get_proof_string_from_settings_config :
    Settings -> RandoConfig -> foreign str;
  get_objective_hint_aliases : foreign (pydict str str);
  (** [json.dumps(.., cls=jotjson.JOTJSONEncoder, ..)] of a settings object
      and of [rset.ForcedFlags] *)
  dumps_Settings : Settings -> foreign str;
  dumps_ForcedFlags : foreign str;
  (** [json.loads(.., cls=jotjson.JOTJSONDecoder)] *)
  loads : str -> foreign json;
  PRESETS_PATH : str
}.

(** The file system calls of the standard library. *)
Class Platform := {
  (** [root.rglob(pattern)]: the matching paths, in the order the system
      lists them *)
  rglob : str -> str -> gmap str bytes -> list str;
  (** the decoding step of [Path.read_text] *)
  decode_text : bytes -> foreign str
}.

(** ** The forms *)

(** [form.cleaned_data] of the two Django forms, which are declared in
    [generator/forms.py]; a field is a key this file subscripts. *)
Record GenerateForm := mkGenerateForm {
  cd_preset : str;
  cd_seed : str;
  cd_spoiler_log : bool
}.

Record RomForm := mkRomForm {
  cd_reduce_flashes : bool;
  cd_zenan_alt_battle_music : bool;
  cd_death_peak_alt_music : bool;
  cd_quiet_mode : bool;
  cd_auto_run : bool;
  cd_crono_name : option str;
  cd_marle_name : option str;
  cd_lucca_name : option str;
  cd_robo_name : option str;
  cd_frog_name : option str;
  cd_ayla_name : option str;
  cd_magus_name : option str;
  cd_epoch_name : option str;
  cd_stereo_audio : option bool;
  cd_save_menu_cursor : option bool;
  cd_save_battle_cursor : option bool;
  cd_skill_item_info : option bool;
  cd_consistent_paging : option bool;
  cd_battle_speed : option Z;
  cd_background_selection : option Z;
  cd_battle_message_speed : option Z;
  cd_battle_gauge_style : option Z
}.

(** ** The methods of [RandomizerInterface] *)

Context {L : RandoLib} {P : Platform} {U : Unicode}.

(** *** Reading and assigning through references *)

(** [o.attr] for [o] a reference: an [AttributeError] when [o] is no
    [Settings] object. *)
Definition read_settings (l : ref) : M Settings :=
  fun w =>
    match heap w !! l with
    | Some s => Return s w
    | None => Raise AttributeError w
    end.

(** [o.attr = v], given as the change of the object. *)
Definition update_settings (l : ref) (f : Settings -> Settings) : M unit :=
  fun w =>
    match heap w !! l with
    | Some s => Return tt (set_heap (<[l := f s]> (heap w)) w)
    | None => Raise AttributeError w
    end.

(** A new object gets a reference that is not in use. *)
Definition alloc_settings (s : Settings) : M ref :=
  fun w =>
    let l := fresh (dom (heap w)) in
    Return l (set_heap (<[l := s]> (heap w)) w).

Definition set_seed (v : str) (s : Settings) : Settings :=
  mkSettings (gameflags s) v (cosmetic_flags s) (char_settings s)
             (ctoptions s) (bucket_settings s) (settings_rest s).
Definition set_gameflags (v : flags) (s : Settings) : Settings :=
  mkSettings v (seed s) (cosmetic_flags s) (char_settings s)
             (ctoptions s) (bucket_settings s) (settings_rest s).
Definition set_cosmetic_flags (v : flags) (s : Settings) : Settings :=
  mkSettings (gameflags s) (seed s) v (char_settings s)
             (ctoptions s) (bucket_settings s) (settings_rest s).
Definition set_char_settings (v : CharSettings) (s : Settings) : Settings :=
  mkSettings (gameflags s) (seed s) (cosmetic_flags s) v
             (ctoptions s) (bucket_settings s) (settings_rest s).
Definition set_ctoptions (v : CTOptions) (s : Settings) : Settings :=
  mkSettings (gameflags s) (seed s) (cosmetic_flags s) (char_settings s)
             v (bucket_settings s) (settings_rest s).

(** [self.randomizer], read and assigned. *)
Definition get_randomizer : M Randomizer :=
  fun w => Return (self_randomizer w) w.
Definition put_randomizer (r : Randomizer) : M unit :=
  fun w => Return tt (set_self_randomizer r w).

Definition set_settings (v : option ref) (r : Randomizer) : Randomizer :=
  mkRandomizer v (config r) (has_generated r) (hash_string_bytes r)
               (randomizer_rest r).
Definition set_config (v : option RandoConfig) (r : Randomizer) : Randomizer :=
  mkRandomizer (settings r) v (has_generated r) (hash_string_bytes r)
               (randomizer_rest r).
Definition set_hash_string_bytes (v : bytes) (r : Randomizer) : Randomizer :=
  mkRandomizer (settings r) (config r) (has_generated r) v
               (randomizer_rest r).

(** [self.randomizer.settings.attr]: [None] has no attributes. *)
Definition randomizer_settings_ref : M ref :=
  r ← get_randomizer;
  match settings r with
  | Some l => mret l
  | None => raise AttributeError
  end.

(** A library method called on [self.randomizer]. *)
Definition on_randomizer
    (method : Randomizer -> store -> foreign (Randomizer * store)) : M unit :=
  fun w =>
    match method (self_randomizer w) (heap w) with
    | inl what => Raise (ForeignError what) w
    | inr (r, h) => Return tt (set_self_randomizer r (set_heap h w))
    end.

(** [random.choice(xs)] *)
Definition random_choice {A} (xs : list A) : M A :=
  fun w =>
    match xs with
    | [] => Raise IndexError w
    | _ =>
        match rng w with
        | [] => OutOfFuel
        | i :: g =>
            match xs !! (i mod length xs)%nat with
            | Some x => Return x (set_rng g w)
            | None => Raise IndexError w
            end
        end
    end.

(** [str(datetime.datetime.now().microsecond)] *)
Definition microsecond_nonce : M str :=
  fun w => Return (str_of_N (now_microsecond w)) w.

(** *** Seeds *)

(** [get_random_seed], lines 534-544: two names drawn from the library's
    list and joined. *)
Definition get_random_seed : M str :=
  w ← get_world;
  names ← lift (of_foreign (read_names (files w) (cwd w)));
  a ← random_choice names;
  b ← random_choice names;
  mret (a ++ b).

(** [while seed == new_seed: new_seed = self.get_random_seed()], lines
    158-159.  [fuel] bounds the number of iterations. *)
Fixpoint draw_new_seed (fuel : nat) (seed0 new_seed : str) : M str :=
  if bool_decide (seed0 = new_seed) then
    match fuel with
    | O => fun _ => OutOfFuel
    | S fuel' => drawn ← get_random_seed; draw_new_seed fuel' seed0 drawn
    end
  else mret new_seed.

(** [__init__], lines 104-110. *)
Definition __init__ (rom_data : bytes) : M unit :=
  w ← get_world;
  '(r, h) ← lift (of_foreign (new_Randomizer rom_data None None (heap w)));
  put_world (set_self_randomizer r (set_heap h w)).

(** [__convert_form_to_settings], lines 296-314. *)
Definition __convert_form_to_settings (form : GenerateForm) : M ref :=
  s ← lift (of_foreign (from_preset_data (cd_preset form)));
  l ← alloc_settings s;
  (if bool_decide (cd_seed form = [])
   then drawn ← get_random_seed; update_settings l (set_seed drawn)
   else update_settings l (set_seed (cd_seed form)));;
  mret l.

(** [configure_seed_from_form], lines 112-136. *)
Definition configure_seed_from_form (form : GenerateForm) : M str :=
  l ← __convert_form_to_settings form;
  r ← get_randomizer;
  put_randomizer (set_settings (Some l) r);;
  if cd_spoiler_log form then
    on_randomizer set_random_config;;
    mret []
  else
    nonce ← microsecond_nonce;
    l1 ← randomizer_settings_ref;
    s1 ← read_settings l1;
    l2 ← randomizer_settings_ref;
    update_settings l2 (set_seed (seed s1 ++ nonce));;
    on_randomizer set_random_config;;
    l3 ← randomizer_settings_ref;
    update_settings l3 (set_seed (seed s1));;
    mret nonce.

(** [configure_seed_from_settings], lines 138-173; [l] is the reference
    the caller passes as [settings].  Every round of the loop but the last
    makes two draws, so one round more than there are draws is a bound the
    loop cannot use up: it ends by a new seed, by an exception of
    [get_random_seed], or by the draws running out. *)
Definition configure_seed_from_settings (l : ref) (is_race_seed : bool) : M str :=
  s ← read_settings l;
  if flag_in (GF_value MYSTERY) (gameflags s) then
    raise (InvalidSettingsException (lit "Mystery seeds cannot be cloned."))
  else
    r ← get_randomizer;
    put_randomizer (set_settings (Some l) r);;
    s0 ← read_settings l;
    w ← get_world;
    new_seed ← draw_new_seed (S (length (rng w))) (seed s0) (seed s0);
    update_settings l (set_seed new_seed);;
    if is_race_seed then
      nonce ← microsecond_nonce;
      l1 ← randomizer_settings_ref;
      update_settings l1 (set_seed (new_seed ++ nonce));;
      on_randomizer set_random_config;;
      l2 ← randomizer_settings_ref;
      update_settings l2 (set_seed new_seed);;
      mret nonce
    else
      on_randomizer set_random_config;;
      mret [].

(** [generate_rom], lines 175-182. *)
Definition generate_rom : M bytes :=
  on_randomizer lib_generate_rom;;
  w ← get_world;
  lift (of_foreign (get_generated_rom (self_randomizer w) (heap w))).

(** [get_seed_hash], lines 184-187. *)
Definition get_seed_hash : M bytes :=
  r ← get_randomizer;
  (if has_generated r then mret tt else generate_rom;; mret tt);;
  r' ← get_randomizer;
  mret (hash_string_bytes r').

(** [set_seed_hash], lines 189-191. *)
Definition set_seed_hash (hash_bytes : bytes) : M unit :=
  r ← get_randomizer;
  if has_generated r then mret tt
  else r' ← get_randomizer; put_randomizer (set_hash_string_bytes hash_bytes r').

(** *** Cosmetic settings *)

(** [cos_flag_dict], lines 205-211. *)
Definition cos_flag_dict : pydict str CosmeticFlag :=
  dict_of_items
    [ (lit "reduce_flashes", REDUCE_FLASH);
      (lit "zenan_alt_battle_music", ZENAN_ALT_MUSIC);
      (lit "death_peak_alt_music", DEATH_PEAK_ALT_MUSIC);
      (lit "quiet_mode", QUIET_MODE);
      (lit "auto_run", AUTORUN) ].

(** [form.cleaned_data[name]] for a computed key, read for its truth. *)
Definition cleaned_flag (form : RomForm) (key : str) : res bool :=
  if bool_decide (key = lit "reduce_flashes") then Ok (cd_reduce_flashes form)
  else if bool_decide (key = lit "zenan_alt_battle_music")
  then Ok (cd_zenan_alt_battle_music form)
  else if bool_decide (key = lit "death_peak_alt_music")
  then Ok (cd_death_peak_alt_music form)
  else if bool_decide (key = lit "quiet_mode") then Ok (cd_quiet_mode form)
  else if bool_decide (key = lit "auto_run") then Ok (cd_auto_run form)
  else Err KeyError.

(** The loop of lines 214-217. *)
Definition cosmetic_flags_of_form (form : RomForm) : res flags :=
  res_fold
    (fun cos_flags item =>
       checked ← cleaned_flag form item.1;
       Ok (if checked : bool then N.lor cos_flags (CF_value item.2)
           else cos_flags))
    0%N (dict_items cos_flag_dict).

(** [settings.char_settings.names[i] = v] *)
Definition assign_name (l : ref) (i : nat) (v : str) : M unit :=
  s ← read_settings l;
  if decide (i < length (names (char_settings s)))%nat then
    update_settings l
      (set_char_settings (mkCharSettings (<[i := v]> (names (char_settings s)))))
  else raise IndexError.

(** [settings.ctoptions.attr = v] *)
Definition assign_ctoption (l : ref) (f : CTOptions -> CTOptions) : M unit :=
  update_settings l (fun s => set_ctoptions (f (ctoptions s)) s).

Definition set_stereo_audio (v : bool) (o : CTOptions) : CTOptions :=
  mkCTOptions v (save_menu_cursor o) (save_battle_cursor o)
    (skill_item_info o) (consistent_paging o) (battle_speed o)
    (menu_background o) (battle_msg_speed o) (battle_gauge_style o).
Definition set_save_menu_cursor (v : bool) (o : CTOptions) : CTOptions :=
  mkCTOptions (stereo_audio o) v (save_battle_cursor o)
    (skill_item_info o) (consistent_paging o) (battle_speed o)
    (menu_background o) (battle_msg_speed o) (battle_gauge_style o).
Definition set_save_battle_cursor (v : bool) (o : CTOptions) : CTOptions :=
  mkCTOptions (stereo_audio o) (save_menu_cursor o) v
    (skill_item_info o) (consistent_paging o) (battle_speed o)
    (menu_background o) (battle_msg_speed o) (battle_gauge_style o).
Definition set_skill_item_info (v : bool) (o : CTOptions) : CTOptions :=
  mkCTOptions (stereo_audio o) (save_menu_cursor o) (save_battle_cursor o)
    v (consistent_paging o) (battle_speed o)
    (menu_background o) (battle_msg_speed o) (battle_gauge_style o).
Definition set_consistent_paging (v : bool) (o : CTOptions) : CTOptions :=
  mkCTOptions (stereo_audio o) (save_menu_cursor o) (save_battle_cursor o)
    (skill_item_info o) v (battle_speed o)
    (menu_background o) (battle_msg_speed o) (battle_gauge_style o).
Definition set_battle_speed (v : Z) (o : CTOptions) : CTOptions :=
  mkCTOptions (stereo_audio o) (save_menu_cursor o) (save_battle_cursor o)
    (skill_item_info o) (consistent_paging o) v
    (menu_background o) (battle_msg_speed o) (battle_gauge_style o).
Definition set_menu_background (v : Z) (o : CTOptions) : CTOptions :=
  mkCTOptions (stereo_audio o) (save_menu_cursor o) (save_battle_cursor o)
    (skill_item_info o) (consistent_paging o) (battle_speed o)
    v (battle_msg_speed o) (battle_gauge_style o).
Definition set_battle_msg_speed (v : Z) (o : CTOptions) : CTOptions :=
  mkCTOptions (stereo_audio o) (save_menu_cursor o) (save_battle_cursor o)
    (skill_item_info o) (consistent_paging o) (battle_speed o)
    (menu_background o) v (battle_gauge_style o).
Definition set_battle_gauge_style (v : Z) (o : CTOptions) : CTOptions :=
  mkCTOptions (stereo_audio o) (save_menu_cursor o) (save_battle_cursor o)
    (skill_item_info o) (consistent_paging o) (battle_speed o)
    (menu_background o) (battle_msg_speed o) v.

(** [if v is not None: target = v] *)
Definition when_given {A} (v : option A) (assign : A -> M unit) : M unit :=
  match v with
  | Some a => assign a
  | None => mret tt
  end.

(** [if v: target = clamp(v - 1, 0, 7)]: nothing for [None] and for 0. *)
Definition when_nonzero (v : option Z) (assign : Z -> M unit) : M unit :=
  match v with
  | Some a => if bool_decide (a = 0) then mret tt else assign a
  | None => mret tt
  end.

(** The body of [if form is not None], lines 214-263. *)
Definition apply_rom_form (l : ref) (form : RomForm) : M unit :=
  cos_flags ← lift (cosmetic_flags_of_form form);
  update_settings l (set_cosmetic_flags cos_flags);;
  assign_name l 0 (get_character_name (cd_crono_name form) (lit "Crono"));;
  assign_name l 1 (get_character_name (cd_marle_name form) (lit "Marle"));;
  assign_name l 2 (get_character_name (cd_lucca_name form) (lit "Lucca"));;
  assign_name l 3 (get_character_name (cd_robo_name form) (lit "Robo"));;
  assign_name l 4 (get_character_name (cd_frog_name form) (lit "Frog"));;
  assign_name l 5 (get_character_name (cd_ayla_name form) (lit "Ayla"));;
  assign_name l 6 (get_character_name (cd_magus_name form) (lit "Magus"));;
  assign_name l 7 (get_character_name (cd_epoch_name form) (lit "Epoch"));;
  when_given (cd_stereo_audio form)
    (fun v => assign_ctoption l (set_stereo_audio v));;
  when_given (cd_save_menu_cursor form)
    (fun v => assign_ctoption l (set_save_menu_cursor v));;
  when_given (cd_save_battle_cursor form)
    (fun v => assign_ctoption l (set_save_battle_cursor v));;
  when_given (cd_skill_item_info form)
    (fun v => assign_ctoption l (set_skill_item_info v));;
  when_given (cd_consistent_paging form)
    (fun v => assign_ctoption l (set_consistent_paging v));;
  when_nonzero (cd_battle_speed form)
    (fun v => assign_ctoption l (set_battle_speed (clamp (v - 1) 0 7)));;
  when_nonzero (cd_background_selection form)
    (fun v => assign_ctoption l (set_menu_background (clamp (v - 1) 0 7)));;
  when_nonzero (cd_battle_message_speed form)
    (fun v => assign_ctoption l (set_battle_msg_speed (clamp (v - 1) 0 7)));;
  when_given (cd_battle_gauge_style form)
    (fun v => assign_ctoption l (set_battle_gauge_style (clamp v 0 2))).

(** [set_settings_and_config], lines 193-266. *)
Definition set_settings_and_config
    (l : ref) (c : RandoConfig) (form : option RomForm) : M unit :=
  match form with
  | Some f => apply_rom_form l f
  | None => mret tt
  end;;
  r ← get_randomizer;
  put_randomizer (set_settings (Some l) r);;
  r' ← get_randomizer;
  put_randomizer (set_config (Some c) r').

(** [get_settings] and [get_config], lines 268-282. *)
Definition get_settings : M (option ref) :=
  r ← get_randomizer; mret (settings r).
Definition get_config : M (option RandoConfig) :=
  r ← get_randomizer; mret (config r).

(** [get_rom_name], lines 284-294. *)
Definition get_rom_name (share_id : str) : M str :=
  l ← randomizer_settings_ref;
  s ← read_settings l;
  if flag_in (GF_value MYSTERY) (gameflags s) then
    mret (lit "ctjot_mystery_" ++ share_id ++ lit ".sfc")
  else
    l' ← randomizer_settings_ref;
    s' ← read_settings l';
    flag_string ← lift (of_foreign (get_flag_string s'));
    mret (lit "ctjot_" ++ flag_string ++ lit "_" ++ share_id ++ lit ".sfc").

(** *** The base ROM *)

(** How the system finds the file for a path: an absolute path is taken as
    it is, any other path is looked up from the working directory. *)
Definition slash : codepoint := 47%N.

Definition resolve (dir path : str) : str :=
  match path with
  | c :: _ => if (c =? slash)%N then path
              else if bool_decide (last dir = Some slash) then dir ++ path
              else dir ++ slash :: path
  | [] => dir
  end.

(** [open(path, 'rb')] followed by [read()] *)
Definition open_rb (path : str) : M bytes :=
  fun w =>
    match files w !! resolve (cwd w) path with
    | Some content => Return content w
    | None => Raise (FileNotFoundError path) w
    end.

(** [get_base_rom], lines 546-561. *)
Definition get_base_rom : M bytes := open_rb (lit "ct.sfc").

(** *** Spoiler logs as text *)

(** [rando = randomizer.Randomizer(cls.get_base_rom(), is_vanilla=True,
    settings=settings, config=config)] and the assignment of the hash that
    follows it, as in lines 329-331, 351-353 and 577-579. *)
Definition spoiler_randomizer
    (c : RandoConfig) (l : ref) (hash_bytes : option bytes) : M Randomizer :=
  rom ← get_base_rom;
  w ← get_world;
  '(rando, h) ← lift (of_foreign (new_Randomizer rom (Some l) (Some c) (heap w)));
  put_world (set_heap h w);;
  mret (match hash_bytes with
        | Some hb => set_hash_string_bytes hb rando
        | None => rando
        end).

(** A writer of the library called on a [StringIO] holding [text]. *)
Definition write_with
    (writer : Randomizer -> store -> str -> foreign (str * store))
    (rando : Randomizer) (text : str) : M str :=
  w ← get_world;
  '(text', h) ← lift (of_foreign (writer rando (heap w) text));
  put_world (set_heap h w);;
  mret text'.

(** [get_spoiler_log], lines 317-337; the result is the text of the
    [StringIO]. *)
Definition get_spoiler_log
    (c : RandoConfig) (l : ref) (hash_bytes : option bytes) : M str :=
  rando ← spoiler_randomizer c l hash_bytes;
  write_with write_spoiler_log rando [].

(** [get_json_spoiler_log], lines 339-359. *)
Definition get_json_spoiler_log
    (c : RandoConfig) (l : ref) (hash_bytes : option bytes) : M str :=
  rando ← spoiler_randomizer c l hash_bytes;
  write_with write_json_spoiler_log rando [].

Definition newline : codepoint := 10%N.

(** [get_share_details], lines 563-594. *)
Definition get_share_details
    (c : RandoConfig) (l : ref) (hash_bytes : option bytes) : M str :=
  rando ← spoiler_randomizer c l hash_bytes;
  s ← read_settings l;
  if flag_in (GF_value MYSTERY) (gameflags s) then
    mret (lit "Mystery seed!" ++ [newline])
  else
    s' ← read_settings l;
    write_with write_settings_spoilers rando
      (lit "Seed: " ++ seed s' ++ [newline]).

(** *** The web spoiler log *)

(** [s.splitlines()]: the line boundaries are LF, CR, CR LF, VT, FF, FS,
    GS, RS, NEL, LS and PS, and a boundary at the end opens no line. *)
Definition is_linebreak (c : codepoint) : bool :=
  between 10 13 c || between 28 30 c || (c =? 133)%N
  || between 8232 8233 c.

Fixpoint splitlines_from (line s : str) : list str :=
  match s with
  | [] => match line with [] => [] | _ => [line] end
  | c :: rest =>
      if (c =? 13)%N then
        match rest with
        | c' :: rest' =>
            if (c' =? 10)%N then line :: splitlines_from [] rest'
            else line :: splitlines_from [] rest
        | [] => [line]
        end
      else if is_linebreak c then line :: splitlines_from [] rest
      else splitlines_from (line ++ [c]) rest
  end.

Definition splitlines (s : str) : list str := splitlines_from [] s.

(** The pattern of line 418, matched the way a backtracking matcher does.
    It is an optional prefix followed by the named group [desc], which is
    [.+].  The prefix is the named group [sphere], a colon, and [\s*]; the
    group [sphere] is [GO] or else a group that is [\d?]. *)

(** The longest prefix of characters that are not LF. *)
Fixpoint upto_newline (s : str) : str :=
  match s with
  | c :: rest => if (c =? 10)%N then [] else c :: upto_newline rest
  | [] => []
  end.

(** [desc]: as many characters other than LF as there are, and at
    least one. *)
Definition match_desc (s : str) : option str :=
  match upto_newline s with
  | [] => None
  | d => Some d
  end.

(** [\s*] and [desc]: the star gives back white space until the rest
    matches. *)
Fixpoint match_space_desc (s : str) : option str :=
  match s with
  | c :: rest =>
      if char_isspace c then
        match match_space_desc rest with
        | Some d => Some d
        | None => match_desc s
        end
      else match_desc s
  | [] => None
  end.

(** The colon, [\s*] and [desc]. *)
Definition match_colon_desc (s : str) : option str :=
  match s with
  | c :: rest => if (c =? 58)%N then match_space_desc rest else None
  | [] => None
  end.

(** The whole pattern at the start of [s]; the result is the pair of the
    groups [sphere] and [desc].  The alternatives are tried in the order
    of the pattern: [GO], one digit, no digit, and last the match without
    the optional group. *)
Definition rgx_match (s : str) : option (option str * str) :=
  let with_sphere (sphere rest : str) :=
    d ← match_colon_desc rest; Some (Some sphere, d) in
  let go :=
    match s with
    | c1 :: c2 :: rest =>
        if ((c1 =? 71) && (c2 =? 79))%N then with_sphere (lit "GO") rest
        else None
    | _ => None
    end in
  let digit :=
    match s with
    | c :: rest => if char_isdecimal c then with_sphere [c] rest else None
    | [] => None
    end in
  let no_digit := with_sphere [] s in
  let no_group := d ← match_desc s; Some (None, d) in
  match go with
  | Some m => Some m
  | None =>
      match digit with
      | Some m => Some m
      | None =>
          match no_digit with
          | Some m => Some m
          | None => no_group
          end
      end
  end.

(** [rgx.search(line)]: the match at the first position that has one. *)
Fixpoint rgx_search (s : str) : option (option str * str) :=
  match rgx_match s with
  | Some m => Some m
  | None =>
      match s with
      | [] => None
      | _ :: rest => rgx_search rest
      end
  end.

(** An item of one of the five lists; a group that took no part in the
    match is [None] in [match.groupdict()]. *)
Definition entry := pydict str (option str).
Definition spoiler := pydict str (list entry).

Definition groupdict (m : option str * str) : entry :=
  dict_of_items [ (lit "sphere", m.1); (lit "desc", Some m.2) ].

(** The dictionary of lines 388-389. *)
Definition objective_entry (ind : nat) (objective : Objective) : entry :=
  dict_of_items
    [ (lit "name", Some (lit "Objective " ++ str_of_N (N.of_nat (ind + 1))));
      (lit "desc", Some (desc objective)) ].

(** The loop of lines 383-390, from index [ind] on. *)
Fixpoint objectives_loop
    (num_objs : Z) (ind : nat) (objs : list Objective) (log : spoiler)
    : res spoiler :=
  match objs with
  | [] => Ok log
  | objective :: rest =>
      if Z.of_nat ind >=? num_objs then Ok log
      else
        log' ← dict_append (lit "objectives") (objective_entry ind objective) log;
        objectives_loop num_objs (S ind) rest log'
  end.

(** [get_web_spoiler_log], lines 361-424. *)
Definition get_web_spoiler_log (s : Settings) (c : RandoConfig) : res spoiler :=
  let spoiler_log : spoiler :=
    dict_of_items
      [ (lit "characters", []); (lit "key_items", []); (lit "bosses", []);
        (lit "objectives", []); (lit "spheres", []) ] in
  spoiler_log ←
    (if flag_in (GF_value BUCKET_LIST) (gameflags s) then
       objectives_loop (num_objectives (bucket_settings s)) 0
         (objectives c) spoiler_log
     else Ok spoiler_log);
  spoiler_log ←
    res_fold
      (fun log recruit_spot =>
         recruit ← dict_item recruit_spot (char_assign_dict c);
         reassign_char ←
           of_foreign (get_character_assignment (pcstats c) (held_char recruit));
         dict_append (lit "characters")
           (dict_of_items
              [ (lit "location", Some (format_RecruitID recruit_spot));
                (lit "character", Some (format_CharID (held_char recruit)));
                (lit "reassign", Some (format_CharID reassign_char)) ])
           log)
      spoiler_log (dict_keys (char_assign_dict c));
  spoiler_log ←
    res_fold
      (fun log location =>
         dict_append (lit "key_items")
           (dict_of_items
              [ (lit "location", Some (getName location));
                (lit "key", Some (str_KeyItem (getKeyItem location))) ])
           log)
      spoiler_log (key_item_locations c);
  spoiler_log ←
    res_fold
      (fun log location =>
         boss ← dict_item location (boss_assign_dict c);
         boss_str ←
           (if decide (boss = TWIN_BOSS) then
              scheme ← dict_item TWIN_BOSS (boss_data_dict c);
              part ← match parts scheme !! 0%nat with
                     | Some part => Ok part
                     | None => Err IndexError
                     end;
              twin ← dict_item (enemy_id part) (enemy_dict c);
              Ok (lit "Twin " ++ name twin)
            else
              boss' ← dict_item location (boss_assign_dict c);
              Ok (str_BossID boss'));
         dict_append (lit "bosses")
           (dict_of_items
              [ (lit "location", Some (str_LocID location));
                (lit "boss", Some boss_str) ])
           log)
      spoiler_log (dict_keys (boss_assign_dict c));
  spheres ← of_foreign (get_proof_string_from_settings_config s c);
  res_fold
    (fun log line =>
       match rgx_search line with
       | Some m => dict_append (lit "spheres") (groupdict m) log
       | None => Ok log
       end)
    spoiler_log (splitlines spheres).

(** *** The maps for [options.js] *)

(** [enums_map], lines 35-88: a list of enumeration strings or a
    dictionary from form values to them under each key. *)
Definition enums_map : pydict str (list str + pydict str str) :=
  dict_of_items
    [ (lit "game_mode", inl GameMode_strs);
      (lit "shopprices", inl ShopPrices_strs);
      (lit "item_difficulty", inl Difficulty_strs);
      (lit "enemy_difficulty", inl [str_Difficulty_NORMAL; str_Difficulty_HARD]);
      (lit "techorder", inl TechOrder_strs);
      (lit "gameflags", inr (dict_of_items
        [ (lit "disable_glitches", str_GameFlag FIX_GLITCH);
          (lit "boss_rando", str_GameFlag BOSS_RANDO);
          (lit "boss_scaling", str_GameFlag BOSS_SCALE);
          (lit "zeal", str_GameFlag ZEAL_END);
          (lit "early_pendant", str_GameFlag FAST_PENDANT);
          (lit "locked_chars", str_GameFlag LOCKED_CHARS);
          (lit "unlocked_magic", str_GameFlag UNLOCKED_MAGIC);
          (lit "tab_treasures", str_GameFlag TAB_TREASURES);
          (lit "chronosanity", str_GameFlag CHRONOSANITY);
          (lit "char_rando", str_GameFlag CHAR_RANDO);
          (lit "healing_item_rando", str_GameFlag HEALING_ITEM_RANDO);
          (lit "gear_rando", str_GameFlag GEAR_RANDO);
          (lit "mystery_seed", str_GameFlag MYSTERY);
          (lit "epoch_fail", str_GameFlag EPOCH_FAIL);
          (lit "duplicate_characters", str_GameFlag DUPLICATE_CHARS);
          (lit "duplicate_duals", str_GameFlag DUPLICATE_TECHS);
          (lit "unlocked_skyways", str_GameFlag UNLOCKED_SKYGATES);
          (lit "add_sunkeep_spot", str_GameFlag ADD_SUNKEEP_SPOT);
          (lit "add_bekkler_spot", str_GameFlag ADD_BEKKLER_SPOT);
          (lit "add_cyrus_spot", str_GameFlag ADD_CYRUS_SPOT);
          (lit "restore_tools", str_GameFlag RESTORE_TOOLS);
          (lit "add_ozzie_spot", str_GameFlag ADD_OZZIE_SPOT);
          (lit "restore_johnny_race", str_GameFlag RESTORE_JOHNNY_RACE);
          (lit "add_racelog_spot", str_GameFlag ADD_RACELOG_SPOT);
          (lit "remove_black_omen_spot", str_GameFlag REMOVE_BLACK_OMEN_SPOT);
          (lit "split_arris_dome", str_GameFlag SPLIT_ARRIS_DOME);
          (lit "vanilla_robo_ribbon", str_GameFlag VANILLA_ROBO_RIBBON);
          (lit "vanilla_desert", str_GameFlag VANILLA_DESERT);
          (lit "use_antilife", str_GameFlag USE_ANTILIFE);
          (lit "tackle_effects", str_GameFlag TACKLE_EFFECTS_ON);
          (lit "starters_sufficient", str_GameFlag STARTERS_SUFFICIENT);
          (lit "bucket_list", str_GameFlag BUCKET_LIST);
          (lit "rocksanity", str_GameFlag ROCKSANITY);
          (lit "tech_damage_rando", str_GameFlag TECH_DAMAGE_RANDO);
          (lit "sightscope_always_on", str_GameFlag VISIBLE_HEALTH);
          (lit "boss_sightscope", str_GameFlag BOSS_SIGHTSCOPE);
          (lit "fast_tabs", str_GameFlag FAST_TABS);
          (lit "free_menu_glitch", str_GameFlag FREE_MENU_GLITCH) ]));
      (lit "roflags", inr (dict_of_items
        [ (lit "boss_spot_hp", str_ROFlag BOSS_SPOT_HP);
          (lit "legacy_boss_placement", str_ROFlag PRESERVE_PARTS) ])) ].

(** What this file passes to [_jotjson_encode]. *)
Inductive jot_data : Type :=
| ForcedFlags
| SettingsData (s : Settings).

(** [_jotjson_encode], lines 426-434. *)
Definition _jotjson_encode (data : jot_data) : res str :=
  match data with
  | ForcedFlags => of_foreign dumps_ForcedFlags
  | SettingsData s => of_foreign (dumps_Settings s)
  end.

(** [get_enums_map], lines 436-449. *)
Definition get_enums_map : pydict str (list str + pydict str str) := enums_map.

(** [get_forced_flags_json], lines 451-462. *)
Definition get_forced_flags_json : res str := _jotjson_encode ForcedFlags.

(** [{str(v): k for k, v in mapping.items()}], line 476; [str] of a
    string is the string. *)
Definition invert_mapping (mapping : pydict str str) : pydict str str :=
  dict_of_items (map (fun item => (item.2, item.1)) (dict_items mapping)).

(** [get_inv_enums_map], lines 464-478. *)
Definition get_inv_enums_map : pydict str (pydict str str) :=
  dict_of_items
    (omap (fun item : str * (list str + pydict str str) =>
             match item.2 with
             | inr mapping => Some (item.1, invert_mapping mapping)
             | inl _ => None
             end)
          (dict_items enums_map)).

(** [get_obhint_map], lines 480-487. *)
Definition get_obhint_map : res (pydict str str) :=
  of_foreign get_objective_hint_aliases.

(** [get_settings_defaults_json], lines 513-532. *)
Definition get_settings_defaults_json : res str :=
  let s := new_Settings in
  let s := set_gameflags
             (N.lor (gameflags s)
                    (N.lor (GF_value FIX_GLITCH) (GF_value FAST_TABS))) s in
  _jotjson_encode (SettingsData s).

(** *** Presets *)

Fixpoint M_fold {A B} (body : A -> B -> M A) (acc : A) (xs : list B) : M A :=
  match xs with
  | [] => mret acc
  | x :: rest => acc' ← body acc x; M_fold body acc' rest
  end.

(** [path.read_text()] *)
Definition read_text (path : str) : M str :=
  fun w =>
    match files w !! resolve (cwd w) path with
    | Some content => lift (of_foreign (decode_text content)) w
    | None => Raise (FileNotFoundError path) w
    end.

(** [s.split()]: the runs of characters that are not white space. *)
Fixpoint split_from (word s : str) : list str :=
  match s with
  | [] => match word with [] => [] | _ => [word] end
  | c :: rest =>
      if char_isspace c then
        match word with
        | [] => split_from [] rest
        | _ => word :: split_from [] rest
        end
      else split_from (word ++ [c]) rest
  end.

Definition split (s : str) : list str := split_from [] s.

(** [sep.join(words)] *)
Definition join (sep : str) (words : list str) : str :=
  match words with
  | [] => []
  | first :: rest => first ++ concat (map (fun word => sep ++ word) rest)
  end.

(** [s.replace(old, new)] for one-character [old] and [new]. *)
Definition replace_char (old new : codepoint) (s : str) : str :=
  map (fun c => if (c =? old)%N then new else c) s.

(** [j[key]] and [j.lower()] for a decoded JSON value. *)
Definition json_item (key : str) (j : json) : res json :=
  match j with
  | JDict items => dict_item key items
  | _ => Err TypeError
  end.

Definition json_lower (j : json) : res str :=
  match j with
  | JStr s => Ok (str_lower s)
  | _ => Err AttributeError
  end.

(** [a < b] on strings: by code points, a proper prefix first. *)
Fixpoint str_ltb (a b : str) : bool :=
  match a, b with
  | _, [] => false
  | [], _ :: _ => true
  | x :: a', y :: b' =>
      if (x <? y)%N then true
      else if (y <? x)%N then false
      else str_ltb a' b'
  end.

(** [sorted(d.items())]: the keys of a dictionary differ, so the order of
    two items is the order of their keys. *)
Fixpoint insert_item {V} (item : str * V) (sorted : list (str * V))
    : list (str * V) :=
  match sorted with
  | [] => [item]
  | item' :: rest =>
      if str_ltb item.1 item'.1 then item :: sorted
      else item' :: insert_item item rest
  end.

Definition sorted_items {V} (d : pydict str V) : list (str * V) :=
  fold_left (fun sorted item => insert_item item sorted) (dict_items d) [].

(** [get_presets_map], lines 489-511. *)
Definition get_presets_map : M (pydict str (pydict str json)) :=
  w ← get_world;
  let presets := rglob PRESETS_PATH (lit "*.preset.json") (files w) in
  preset_map ←
    M_fold
      (fun preset_map preset =>
         text ← read_text preset;
         let contents := join (lit " ") (split text) in
         text' ← read_text preset;
         data ← lift (of_foreign (loads text'));
         metadata ← lift (json_item (lit "metadata") data);
         name_value ← lift (json_item (lit "name") metadata);
         lowered ← lift (json_lower name_value);
         let preset_id := replace_char 32%N 95%N lowered in
         metadata' ← lift (json_item (lit "metadata") data);
         mret (dict_set preset_id
                 (dict_of_items [ (lit "metadata", metadata');
                                  (lit "contents", JStr contents) ])
                 preset_map))
      [] presets;
  mret (dict_of_items (sorted_items preset_map)).

(** ** The operations as a whole *)

(** A call of a method of the class with its arguments. *)
Inductive call : Type :=
| Call___init__ (rom_data : bytes)
| Call_configure_seed_from_form (form : GenerateForm)
| Call_configure_seed_from_settings (l : ref) (is_race_seed : bool)
| Call_generate_rom
| Call_get_seed_hash
| Call_set_seed_hash (hash_bytes : bytes)
| Call_set_settings_and_config (l : ref) (c : RandoConfig) (form : option RomForm)
| Call_get_settings
| Call_get_config
| Call_get_rom_name (share_id : str)
| Call___convert_form_to_settings (form : GenerateForm)
| Call_get_spoiler_log (c : RandoConfig) (l : ref) (hash_bytes : option bytes)
| Call_get_json_spoiler_log (c : RandoConfig) (l : ref) (hash_bytes : option bytes)
| Call_get_web_spoiler_log (l : ref) (c : RandoConfig)
| Call__jotjson_encode (data : jot_data)
| Call_get_enums_map
| Call_get_forced_flags_json
| Call_get_inv_enums_map
| Call_get_obhint_map
| Call_get_presets_map
| Call_get_settings_defaults_json
| Call_get_random_seed
| Call_get_base_rom
| Call_get_share_details (c : RandoConfig) (l : ref) (hash_bytes : option bytes)
| Call_get_character_name (name : option str) (default_name : str)
| Call_clamp (value min_val max_val : Z).

(** A computation run for its effect and its exception only. *)
Definition void {A} (m : M A) : M unit := m ;; mret tt.

(** What a call does to the world. *)
Definition run (op : call) : M unit :=
  match op with
  | Call___init__ rom_data => __init__ rom_data
  | Call_configure_seed_from_form form => void (configure_seed_from_form form)
  | Call_configure_seed_from_settings l is_race_seed =>
      void (configure_seed_from_settings l is_race_seed)
  | Call_generate_rom => void generate_rom
  | Call_get_seed_hash => void get_seed_hash
  | Call_set_seed_hash hash_bytes => set_seed_hash hash_bytes
  | Call_set_settings_and_config l c form => set_settings_and_config l c form
  | Call_get_settings => void get_settings
  | Call_get_config => void get_config
  | Call_get_rom_name share_id => void (get_rom_name share_id)
  | Call___convert_form_to_settings form => void (__convert_form_to_settings form)
  | Call_get_spoiler_log c l hash_bytes => void (get_spoiler_log c l hash_bytes)
  | Call_get_json_spoiler_log c l hash_bytes =>
      void (get_json_spoiler_log c l hash_bytes)
  | Call_get_web_spoiler_log l c =>
      void (s ← read_settings l; lift (get_web_spoiler_log s c))
  | Call__jotjson_encode data => void (lift (_jotjson_encode data))
  | Call_get_enums_map => void (mret get_enums_map)
  | Call_get_forced_flags_json => void (lift get_forced_flags_json)
  | Call_get_inv_enums_map => void (mret get_inv_enums_map)
  | Call_get_obhint_map => void (lift get_obhint_map)
  | Call_get_presets_map => void get_presets_map
  | Call_get_settings_defaults_json => void (lift get_settings_defaults_json)
  | Call_get_random_seed => void get_random_seed
  | Call_get_base_rom => void get_base_rom
  | Call_get_share_details c l hash_bytes =>
      void (get_share_details c l hash_bytes)
  | Call_get_character_name name default_name =>
      void (mret (get_character_name name default_name))
  | Call_clamp value min_val max_val => void (mret (clamp value min_val max_val))
  end.

End Model.

Arguments Return {T A} a w.
Arguments Raise {T A} e w.
Arguments OutOfFuel {T A}.

(** ** A small library to run the model on

    The instances below stand in for the library, the platform and the
    character database where a statement is checked on concrete data.
    Flags are numbered in the order this file names them and printed as a
    plain [enum.Flag] prints its members. *)

Definition GameFlag_name (f : GameFlag) : string :=
  match f with
  | FIX_GLITCH => "FIX_GLITCH" | BOSS_RANDO => "BOSS_RANDO"
  | BOSS_SCALE => "BOSS_SCALE" | ZEAL_END => "ZEAL_END"
  | FAST_PENDANT => "FAST_PENDANT" | LOCKED_CHARS => "LOCKED_CHARS"
  | UNLOCKED_MAGIC => "UNLOCKED_MAGIC" | TAB_TREASURES => "TAB_TREASURES"
  | CHRONOSANITY => "CHRONOSANITY" | CHAR_RANDO => "CHAR_RANDO"
  | HEALING_ITEM_RANDO => "HEALING_ITEM_RANDO" | GEAR_RANDO => "GEAR_RANDO"
  | MYSTERY => "MYSTERY" | EPOCH_FAIL => "EPOCH_FAIL"
  | DUPLICATE_CHARS => "DUPLICATE_CHARS" | DUPLICATE_TECHS => "DUPLICATE_TECHS"
  | UNLOCKED_SKYGATES => "UNLOCKED_SKYGATES"
  | ADD_SUNKEEP_SPOT => "ADD_SUNKEEP_SPOT"
  | ADD_BEKKLER_SPOT => "ADD_BEKKLER_SPOT" | ADD_CYRUS_SPOT => "ADD_CYRUS_SPOT"
  | RESTORE_TOOLS => "RESTORE_TOOLS" | ADD_OZZIE_SPOT => "ADD_OZZIE_SPOT"
  | RESTORE_JOHNNY_RACE => "RESTORE_JOHNNY_RACE"
  | ADD_RACELOG_SPOT => "ADD_RACELOG_SPOT"
  | REMOVE_BLACK_OMEN_SPOT => "REMOVE_BLACK_OMEN_SPOT"
  | SPLIT_ARRIS_DOME => "SPLIT_ARRIS_DOME"
  | VANILLA_ROBO_RIBBON => "VANILLA_ROBO_RIBBON"
  | VANILLA_DESERT => "VANILLA_DESERT" | USE_ANTILIFE => "USE_ANTILIFE"
  | TACKLE_EFFECTS_ON => "TACKLE_EFFECTS_ON"
  | STARTERS_SUFFICIENT => "STARTERS_SUFFICIENT" | BUCKET_LIST => "BUCKET_LIST"
  | ROCKSANITY => "ROCKSANITY" | TECH_DAMAGE_RANDO => "TECH_DAMAGE_RANDO"
  | VISIBLE_HEALTH => "VISIBLE_HEALTH" | BOSS_SIGHTSCOPE => "BOSS_SIGHTSCOPE"
  | FAST_TABS => "FAST_TABS" | FREE_MENU_GLITCH => "FREE_MENU_GLITCH"
  end.

Definition GameFlag_bit (f : GameFlag) : N :=
  match f with
  | FIX_GLITCH => 0 | BOSS_RANDO => 1 | BOSS_SCALE => 2 | ZEAL_END => 3
  | FAST_PENDANT => 4 | LOCKED_CHARS => 5 | UNLOCKED_MAGIC => 6
  | TAB_TREASURES => 7 | CHRONOSANITY => 8 | CHAR_RANDO => 9
  | HEALING_ITEM_RANDO => 10 | GEAR_RANDO => 11 | MYSTERY => 12
  | EPOCH_FAIL => 13 | DUPLICATE_CHARS => 14 | DUPLICATE_TECHS => 15
  | UNLOCKED_SKYGATES => 16 | ADD_SUNKEEP_SPOT => 17 | ADD_BEKKLER_SPOT => 18
  | ADD_CYRUS_SPOT => 19 | RESTORE_TOOLS => 20 | ADD_OZZIE_SPOT => 21
  | RESTORE_JOHNNY_RACE => 22 | ADD_RACELOG_SPOT => 23
  | REMOVE_BLACK_OMEN_SPOT => 24 | SPLIT_ARRIS_DOME => 25
  | VANILLA_ROBO_RIBBON => 26 | VANILLA_DESERT => 27 | USE_ANTILIFE => 28
  | TACKLE_EFFECTS_ON => 29 | STARTERS_SUFFICIENT => 30 | BUCKET_LIST => 31
  | ROCKSANITY => 32 | TECH_DAMAGE_RANDO => 33 | VISIBLE_HEALTH => 34
  | BOSS_SIGHTSCOPE => 35 | FAST_TABS => 36 | FREE_MENU_GLITCH => 37
  end%N.

Definition CosmeticFlag_bit (f : CosmeticFlag) : N :=
  match f with
  | REDUCE_FLASH => 0 | ZENAN_ALT_MUSIC => 1 | DEATH_PEAK_ALT_MUSIC => 2
  | QUIET_MODE => 3 | AUTORUN => 4
  end%N.

Definition demo_types : RandoTypes := {|
  GF_value f := N.shiftl 1 (GameFlag_bit f);
  CF_value f := N.shiftl 1 (CosmeticFlag_bit f);
  str_GameFlag f := lit ("GameFlags." +:+ GameFlag_name f);
  str_ROFlag f :=
    match f with
    | BOSS_SPOT_HP => lit "ROFlags.BOSS_SPOT_HP"
    | PRESERVE_PARTS => lit "ROFlags.PRESERVE_PARTS"
    end;
  GameMode_strs := [lit "GameMode.STANDARD"; lit "GameMode.LOST_WORLDS"];
  ShopPrices_strs := [lit "ShopPrices.NORMAL"; lit "ShopPrices.FREE"];
  Difficulty_strs :=
    [lit "Difficulty.EASY"; lit "Difficulty.NORMAL"; lit "Difficulty.HARD"];
  TechOrder_strs := [lit "TechOrder.NORMAL"; lit "TechOrder.FULL_RANDOM"];
  str_Difficulty_NORMAL := lit "Difficulty.NORMAL";
  str_Difficulty_HARD := lit "Difficulty.HARD";
  RecruitID := str;
  CharID := str;
  KeyItem := str;
  LocID := str;
  BossID := str;
  EnemyID := str;
  TWIN_BOSS := lit "Twin Boss";
  RecruitID_eq_dec := _;
  LocID_eq_dec := _;
  BossID_eq_dec := _;
  EnemyID_eq_dec := _;
  format_RecruitID x := x;
  format_CharID x := x;
  str_KeyItem x := x;
  str_LocID x := x;
  str_BossID x := x;
  PCStats := unit;
  SettingsRest := unit;
  ConfigRest := unit;
  RandomizerRest := unit;
  JsonOther := unit
|}.

Definition demo_config : @RandoConfig demo_types :=
  mkRandoConfig (T := demo_types) [] [] tt [] [] [] [] tt.

Definition demo_ctoptions : CTOptions :=
  mkCTOptions false false false false false 4 0 4 0.

Definition demo_settings (fl : flags) (seed0 : str) (num : Z)
    : @Settings demo_types :=
  mkSettings (T := demo_types) fl seed0 0%N
    (mkCharSettings
       [lit "Crono"; lit "Marle"; lit "Lucca"; lit "Robo"; lit "Frog";
        lit "Ayla"; lit "Magus"; lit "Epoch"])
    demo_ctoptions (mkBucketSettings num) tt.

Definition demo_lib : @RandoLib demo_types := {|
  new_Randomizer rom s c h :=
    inr (mkRandomizer (T := demo_types) s c false [] tt, h);
  set_random_config r h := inr (set_config (Some demo_config) r, h);
  lib_generate_rom r h :=
    inr (mkRandomizer (T := demo_types) (settings r) (config r) true
           (hash_string_bytes r) tt, h);
  get_generated_rom r h := inr [];
  write_spoiler_log r h text := inr (text ++ lit "spoilers", h);
  write_json_spoiler_log r h text := inr (text ++ lit "{}", h);
  write_settings_spoilers r h text := inr (text ++ lit "settings", h);
  read_names fs dir := inr [lit "Gato"; lit "Nizbel"; lit "Toma"];
  from_preset_data preset := inr (demo_settings 0%N [] 5);
  new_Settings := demo_settings 0%N [] 5;
  get_flag_string s := inr (lit "std");
  get_character_assignment stats c := inr c;
  get_proof_string_from_settings_config s c :=
    inr (lit "GO: Magus" ++ [newline] ++ lit "1: Gate Key" ++ [newline]);
  get_objective_hint_aliases := inr [];
  dumps_Settings s := inr (lit "{}");
  dumps_ForcedFlags := inr (lit "{}");
  loads text :=
    inr (JDict (T := demo_types)
           [(lit "metadata", JDict [(lit "name", JStr text)])]);
  PRESETS_PATH := lit "/srv/app/presets"
|}.

Definition demo_platform : Platform := {|
  rglob root pattern fs := [];
  decode_text content := inr content
|}.

Definition demo_unicode : Unicode := {|
  uni_isalnum c := false;
  uni_isspace c := false;
  uni_isdecimal c := false;
  str_lower s := map (fun c => if between 65 90 c then (c + 32)%N else c) s
|}.

Definition demo_randomizer : @Randomizer demo_types :=
  mkRandomizer (T := demo_types) None None false [] tt.

(** A world with one [Settings] object at reference 1, the ROM in the base
    directory, and the server started from another directory. *)
Definition demo_world (s : @Settings demo_types) (draws : list nat) : World :=
  mkWorld {[ 1%positive := s ]} demo_randomizer
    {[ lit "/srv/app/ct.sfc" := [78; 69; 83]%N ]}
    (lit "/home/www") (lit "/srv/app") draws 123456%N.

Definition demo_flag (f : GameFlag) : flags := @GF_value demo_types f.

(** A world whose object at reference 1 is a mystery seed. *)
Definition mystery_world : @World demo_types :=
  demo_world (demo_settings (demo_flag MYSTERY) (lit "GatoToma") 5) [0; 1]%nat.

(** ** Vocabulary of the statements *)

(** A computation that never ends in [InvalidSettingsException]. *)
Definition res_quiet {A} (r : res A) : Prop :=
  forall msg, r <> Err (InvalidSettingsException msg).

Definition quiet {T : RandoTypes} {A} (m : M A) : Prop :=
  forall w msg w', m w <> Raise (InvalidSettingsException msg) w'.

(** The list under a key of the spoiler log. *)
Definition log_list (key : string) (log : spoiler) : option (list entry) :=
  dict_get (lit key) log.

(** The five keys of the spoiler log, in the order of the source. *)
Definition spoiler_keys : list str :=
  [lit "characters"; lit "key_items"; lit "bosses"; lit "objectives";
   lit "spheres"].

(** What the later loops keep of a spoiler log: its keys and its list of
    objectives. *)
Definition log_inv (objs : list entry) (log : spoiler) : Prop :=
  dict_keys log = spoiler_keys /\ log_list "objectives" log = Some objs.

(** The name the web page shows for the objective at index [ind]. *)
Definition objective_name (ind : nat) : str :=
  lit "Objective " ++ str_of_N (N.of_nat (ind + 1)).

(** A spoiler log for a bucket list of [num] objectives over a
    configuration that has two. *)
Definition bucket_settings_of (num : Z) : @Settings demo_types :=
  demo_settings (demo_flag BUCKET_LIST) (lit "GatoToma") num.

Definition two_objectives : @RandoConfig demo_types :=
  mkRandoConfig (T := demo_types)
    [mkObjective (lit "Defeat Magus"); mkObjective (lit "Recruit Frog")]
    [] tt [] [] [] [] tt.

(** The object a reference denotes in a world. *)
Definition object_at {T : RandoTypes} (l : ref) (w : World) : option Settings :=
  heap w !! l.

(** The seed two draws give: the names at the two indices, joined. *)
Definition seed_of_draws (names : list str) (i j : nat) : option str :=
  a ← names !! (i mod length names)%nat;
  b ← names !! (j mod length names)%nat;
  Some (a ++ b).

(** The first seed the draws give that is not [old], with the draws that
    are left after it. *)
Fixpoint first_new_seed (names : list str) (old : str) (draws : list nat)
    : option (str * list nat) :=
  match draws with
  | i :: j :: rest =>
      match seed_of_draws names i j with
      | Some drawn =>
          if bool_decide (old = drawn) then first_new_seed names old rest
          else Some (drawn, rest)
      | None => None
      end
  | _ => None
  end.

(** The library's [set_random_config] leaves the [Settings] objects and the
    randomizer's reference to its settings as they are. *)
Definition keeps_settings {T : RandoTypes} (L : RandoLib) : Prop :=
  forall r h r' h',
    set_random_config r h = inr (r', h') -> h' = h /\ settings r' = settings r.

(** A world whose object at reference 1 has the seed that the first two
    draws give again.  As in every [demo_world], the ROM is in [BASE_DIR]
    and the working directory is another one. *)
Definition clone_world : @World demo_types :=
  demo_world (demo_settings 0%N (lit "GatoGato") 5) [0; 0; 1; 2]%nat.

(** *** The effect of a ROM form on a settings object *)

Section FormEffect.
Context {T : RandoTypes} {U : Unicode}.

(** The object has [n] name slots or more; eight are assigned. *)
Definition has_slots (n : nat) (s : Settings) : Prop :=
  (n <= length (names (char_settings s)))%nat.

Definition has_names (s : Settings) : Prop := has_slots 8 s.

(** A change of the object that keeps the number of its name slots. *)
Definition keeps_slots (f : Settings -> Settings) : Prop :=
  forall s, length (names (char_settings (f s))) = length (names (char_settings s)).

(** The flags of the check boxes that are set. *)
Definition form_cosmetic_flags (form : RomForm) : flags :=
  fold_left
    (fun cos item => if item.1 : bool then N.lor cos (CF_value item.2) else cos)
    [ (cd_reduce_flashes form, REDUCE_FLASH);
      (cd_zenan_alt_battle_music form, ZENAN_ALT_MUSIC);
      (cd_death_peak_alt_music form, DEATH_PEAK_ALT_MUSIC);
      (cd_quiet_mode form, QUIET_MODE);
      (cd_auto_run form, AUTORUN) ]
    0%N.

(** The eight names of a form after validation, in slot order. *)
Definition form_names (form : RomForm) : list str :=
  [ get_character_name (cd_crono_name form) (lit "Crono");
    get_character_name (cd_marle_name form) (lit "Marle");
    get_character_name (cd_lucca_name form) (lit "Lucca");
    get_character_name (cd_robo_name form) (lit "Robo");
    get_character_name (cd_frog_name form) (lit "Frog");
    get_character_name (cd_ayla_name form) (lit "Ayla");
    get_character_name (cd_magus_name form) (lit "Magus");
    get_character_name (cd_epoch_name form) (lit "Epoch") ].

Definition set_name (i : nat) (v : str) (s : Settings) : Settings :=
  set_char_settings (mkCharSettings (<[i := v]> (names (char_settings s)))) s.

Definition set_option (f : CTOptions -> CTOptions) (s : Settings) : Settings :=
  set_ctoptions (f (ctoptions s)) s.

Definition given {A} (v : option A) (f : A -> Settings -> Settings)
    (s : Settings) : Settings :=
  match v with
  | Some a => f a s
  | None => s
  end.

Definition nonzero (v : option Z) (f : Z -> Settings -> Settings)
    (s : Settings) : Settings :=
  match v with
  | Some a => if bool_decide (a = 0) then s else f a s
  | None => s
  end.

(** The object after the assignments of lines 214-263, in their order. *)
Definition form_settings (form : RomForm) (s : Settings) : Settings :=
  let s := set_cosmetic_flags (form_cosmetic_flags form) s in
  let s := set_name 0 (get_character_name (cd_crono_name form) (lit "Crono")) s in
  let s := set_name 1 (get_character_name (cd_marle_name form) (lit "Marle")) s in
  let s := set_name 2 (get_character_name (cd_lucca_name form) (lit "Lucca")) s in
  let s := set_name 3 (get_character_name (cd_robo_name form) (lit "Robo")) s in
  let s := set_name 4 (get_character_name (cd_frog_name form) (lit "Frog")) s in
  let s := set_name 5 (get_character_name (cd_ayla_name form) (lit "Ayla")) s in
  let s := set_name 6 (get_character_name (cd_magus_name form) (lit "Magus")) s in
  let s := set_name 7 (get_character_name (cd_epoch_name form) (lit "Epoch")) s in
  let s := given (cd_stereo_audio form)
             (fun v => set_option (set_stereo_audio v)) s in
  let s := given (cd_save_menu_cursor form)
             (fun v => set_option (set_save_menu_cursor v)) s in
  let s := given (cd_save_battle_cursor form)
             (fun v => set_option (set_save_battle_cursor v)) s in
  let s := given (cd_skill_item_info form)
             (fun v => set_option (set_skill_item_info v)) s in
  let s := given (cd_consistent_paging form)
             (fun v => set_option (set_consistent_paging v)) s in
  let s := nonzero (cd_battle_speed form)
             (fun v => set_option (set_battle_speed (clamp (v - 1) 0 7))) s in
  let s := nonzero (cd_background_selection form)
             (fun v => set_option (set_menu_background (clamp (v - 1) 0 7))) s in
  let s := nonzero (cd_battle_message_speed form)
             (fun v => set_option (set_battle_msg_speed (clamp (v - 1) 0 7))) s in
  given (cd_battle_gauge_style form)
    (fun v => set_option (set_battle_gauge_style (clamp v 0 2))) s.

(** A computation that replaces the object at [l] by its image under [f]
    and touches nothing else, for an object with [n] name slots or more. *)
Definition updates (n : nat) (l : ref) (f : Settings -> Settings) (m : M unit)
    : Prop :=
  forall w s,
    object_at l w = Some s -> has_slots n s ->
    m w = Return tt (set_heap (<[l := f s]> (heap w)) w).

(** A computation that raises [e] for an object with exactly [n] name
    slots. *)
Definition fails_at (n : nat) (l : ref) (e : exn) (m : M unit) : Prop :=
  forall w s,
    object_at l w = Some s -> length (names (char_settings s)) = n ->
    exists w', m w = Raise e w'.

(** What is stored for an option that is set only when the form gives a
    number other than 0, and for one that is set whenever the form gives
    a number. *)
Definition kept_or_clamped (v : option Z) (old new : Z) : Prop :=
  match v with
  | Some a => if bool_decide (a = 0) then new = old
              else new = clamp (a - 1) 0 7 /\ 0 <= new <= 7
  | None => new = old
  end.

Definition kept_or_gauge (v : option Z) (old new : Z) : Prop :=
  match v with
  | Some a => new = clamp a 0 2 /\ 0 <= new <= 2
  | None => new = old
  end.

End FormEffect.

(** A settings object with three name slots only. *)
Definition short_settings : @Settings demo_types :=
  mkSettings (T := demo_types) 0%N (lit "GatoToma") 0%N
    (mkCharSettings [lit "Crono"; lit "Marle"; lit "Lucca"])
    demo_ctoptions (mkBucketSettings 5) tt.

(** A form that renames Crono and asks for battle speed 12. *)
Definition demo_rom_form : RomForm :=
  mkRomForm true false false false true
    (Some (lit "Hero")) None None None (Some (lit "Glenn")) None None
    (Some (lit "too long"))
    (Some true) None None None None
    (Some 12) (Some 0) None (Some (-4)).

(** The world a ROM form is applied in, and the world after it. *)
Definition form_world : @World demo_types :=
  demo_world (demo_settings 7%N (lit "GatoToma") 5) [].

Definition form_world_after : @World demo_types :=
  match @set_settings_and_config demo_types demo_unicode 1%positive
          demo_config (Some demo_rom_form) form_world with
  | Return _ w' => w'
  | _ => form_world
  end.

(** The demo library with another list of names. *)
Definition lib_with_names (ns : list str) : @RandoLib demo_types := {|
  new_Randomizer := @new_Randomizer demo_types demo_lib;
  set_random_config := @set_random_config demo_types demo_lib;
  lib_generate_rom := @lib_generate_rom demo_types demo_lib;
  get_generated_rom := @get_generated_rom demo_types demo_lib;
  write_spoiler_log := @write_spoiler_log demo_types demo_lib;
  write_json_spoiler_log := @write_json_spoiler_log demo_types demo_lib;
  write_settings_spoilers := @write_settings_spoilers demo_types demo_lib;
  read_names fs dir := inr ns;
  from_preset_data := @from_preset_data demo_types demo_lib;
  new_Settings := @new_Settings demo_types demo_lib;
  get_flag_string := @get_flag_string demo_types demo_lib;
  get_character_assignment := @get_character_assignment demo_types demo_lib;
  get_proof_string_from_settings_config :=
    @get_proof_string_from_settings_config demo_types demo_lib;
  get_objective_hint_aliases := @get_objective_hint_aliases demo_types demo_lib;
  dumps_Settings := @dumps_Settings demo_types demo_lib;
  dumps_ForcedFlags := @dumps_ForcedFlags demo_types demo_lib;
  loads := @loads demo_types demo_lib;
  PRESETS_PATH := @PRESETS_PATH demo_types demo_lib
|}.

(** * Properties *)

(** ** [clamp] *)

(** C2.  For every value and all bounds with [lo <= hi], [clamp value lo hi]
    is [lo] when the value is below [lo], [hi] when it is above [hi], and
    the value itself otherwise. *)
Theorem clamp_spec (value lo hi : Z) :
  lo <= hi ->
  (value < lo -> clamp value lo hi = lo) /\
  (value > hi -> clamp value lo hi = hi) /\
  (~ value < lo -> ~ value > hi -> clamp value lo hi = value).
Proof.
  intros Hbounds. unfold clamp, py_max, py_min.
  repeat split; intros;
    repeat match goal with
           | |- context [?a <? ?b] => destruct (Z.ltb_spec a b)
           | |- context [?a >? ?b] => destruct (Z.gtb_spec a b)
           end; lia.
Qed.

Lemma clamp_spec_witness :
  clamp (-3) 0 7 = 0 /\ clamp 9 0 7 = 7 /\ clamp 4 0 7 = 4.
Proof.
  split; [| split].
  - apply (clamp_spec (-3) 0 7); lia.
  - apply (clamp_spec 9 0 7); lia.
  - apply (clamp_spec 4 0 7); lia.
Defined.

(** ** [get_character_name] *)

Section CharacterNameProperties.
Context {U : Unicode}.

Lemma isalnum_all (n : str) :
  n <> [] -> (forall c, c ∈ n -> char_isalnum c = true) -> isalnum n = true.
Proof.
  intros Hne Hall. destruct n as [|c n]; [done|].
  unfold isalnum. apply forallb_forall. intros x Hx.
  apply Hall. by apply list_elem_of_In.
Qed.

Lemma isalnum_some_not (n : str) (c : codepoint) :
  c ∈ n -> char_isalnum c = false -> isalnum n = false.
Proof.
  intros Hin Hc. destruct n as [|c0 n]; [done|].
  unfold isalnum. apply not_true_is_false. intros Hall.
  rewrite forallb_forall in Hall.
  apply list_elem_of_In in Hin. rewrite (Hall c Hin) in Hc. discriminate.
Qed.

(** C3.  A name that is longer than five characters or has a character
    that is not alphanumeric gives the default; a name of one to five
    characters, all of them alphanumeric, is returned as it is. *)
Theorem get_character_name_spec (name default_name : str) :
  ((5 < length name)%nat \/ (exists c, c ∈ name /\ char_isalnum c = false) ->
   get_character_name (Some name) default_name = default_name) /\
  ((1 <= length name <= 5)%nat ->
   (forall c, c ∈ name -> char_isalnum c = true) ->
   get_character_name (Some name) default_name = name).
Proof.
  split.
  - intros [Hlong | (c & Hin & Hc)]; unfold get_character_name.
    + apply Nat.ltb_lt in Hlong. rewrite Hlong.
      by rewrite orb_true_r.
    + rewrite (isalnum_some_not name c Hin Hc). by rewrite orb_true_r.
  - intros [Hlo Hhi] Hall. unfold get_character_name.
    assert (Hne : name <> []) by (intros ->; simpl in Hlo; lia).
    rewrite (bool_decide_eq_false_2 _ Hne).
    rewrite (proj2 (Nat.ltb_ge 5 (length name)) Hhi).
    by rewrite (isalnum_all name Hne Hall).
Qed.

(** C8.  An absent name and the empty name give the default. *)
Theorem get_character_name_absent (default_name : str) :
  get_character_name None default_name = default_name /\
  get_character_name (Some []) default_name = default_name.
Proof. split; reflexivity. Qed.

End CharacterNameProperties.

Lemma get_character_name_spec_witness :
  @get_character_name demo_unicode (Some (lit "Glenn!")) (lit "Frog") = lit "Frog" /\
  @get_character_name demo_unicode (Some (lit "a b")) (lit "Frog") = lit "Frog" /\
  @get_character_name demo_unicode (Some (lit "Glenn")) (lit "Frog") = lit "Glenn".
Proof.
  split; [| split].
  - apply (@get_character_name_spec demo_unicode (lit "Glenn!") (lit "Frog")).
    left. simpl. lia.
  - apply (@get_character_name_spec demo_unicode (lit "a b") (lit "Frog")).
    right. exists 32%N. split; [| reflexivity].
    apply list_elem_of_In. simpl. tauto.
  - apply (@get_character_name_spec demo_unicode (lit "Glenn") (lit "Frog")).
    + simpl. lia.
    + intros c Hin. apply list_elem_of_In in Hin. simpl in Hin.
      destruct Hin as [<-|[<-|[<-|[<-|[<-|[]]]]]]; reflexivity.
Defined.

(** ** The exceptions of the methods *)

Section Exceptions.
Context {T : RandoTypes} {L : RandoLib} {P : Platform} {U : Unicode}.

(** *** Results *)

Lemma res_quiet_ok {A} (a : A) : res_quiet (Ok a).
Proof. intros msg. discriminate. Qed.

Lemma res_quiet_err {A} (e : exn) :
  (forall msg, e <> InvalidSettingsException msg) -> res_quiet (@Err A e).
Proof. intros He msg [= ->]. by apply (He msg). Qed.

Lemma res_quiet_bind {A B} (r : res A) (k : A -> res B) :
  res_quiet r -> (forall a, res_quiet (k a)) -> res_quiet (r ≫= k).
Proof.
  intros Hr Hk msg. unfold mbind, res_mbind, res_bind.
  destruct r as [a|e]; [apply Hk |].
  intros [= ->]. by apply (Hr msg).
Qed.

Lemma res_quiet_of_foreign {A} (r : foreign A) : res_quiet (of_foreign r).
Proof. intros msg. by destruct r. Qed.

Lemma res_quiet_dict_item {K V} `{EqDecision K} (k : K) (d : pydict K V) :
  res_quiet (dict_item k d).
Proof. intros msg. unfold dict_item. by destruct (dict_get k d). Qed.

Lemma res_quiet_dict_append {K V} `{EqDecision K} (k : K) (x : V)
    (d : pydict K (list V)) :
  res_quiet (dict_append k x d).
Proof.
  unfold dict_append. apply res_quiet_bind.
  - apply res_quiet_dict_item.
  - intros l. apply res_quiet_ok.
Qed.

Lemma res_quiet_fold {A B} (body : A -> B -> res A) (xs : list B) :
  (forall acc x, res_quiet (body acc x)) ->
  forall acc, res_quiet (res_fold body acc xs).
Proof.
  intros Hbody. induction xs as [|x xs IH]; intros acc; simpl.
  - apply res_quiet_ok.
  - apply res_quiet_bind; [apply Hbody | intros acc'; apply IH].
Qed.

(** *** Computations in a world *)

Lemma quiet_ret {A} (a : A) : quiet (mret a : M A).
Proof. intros w msg w'. discriminate. Qed.

Lemma quiet_bind {A B} (m : M A) (k : A -> M B) :
  quiet m -> (forall a, quiet (k a)) -> quiet (m ≫= k).
Proof.
  intros Hm Hk w msg w'. unfold mbind, M_mbind, M_bind.
  destruct (m w) as [a w1|e w1|] eqn:Hrun.
  - apply Hk.
  - intros [= -> ->]. by apply (Hm w msg w').
  - discriminate.
Qed.

Lemma quiet_lift {A} (r : res A) : res_quiet r -> quiet (lift r).
Proof.
  intros Hr w msg w'. unfold lift. destruct r as [a|e]; [discriminate|].
  intros [= -> _]. by apply (Hr msg).
Qed.

Lemma quiet_raise {A} (e : exn) :
  (forall msg, e <> InvalidSettingsException msg) -> quiet (@raise T A e).
Proof. intros He w msg w' [= -> _]. by apply (He msg). Qed.

Lemma quiet_get_world : quiet get_world.
Proof. intros w msg w'. discriminate. Qed.

Lemma quiet_put_world (w0 : World) : quiet (put_world w0).
Proof. intros w msg w'. discriminate. Qed.

Lemma quiet_get_randomizer : quiet get_randomizer.
Proof. intros w msg w'. discriminate. Qed.

Lemma quiet_put_randomizer (r : Randomizer) : quiet (put_randomizer r).
Proof. intros w msg w'. discriminate. Qed.

Lemma quiet_read_settings (l : ref) : quiet (read_settings l).
Proof. intros w msg w'. unfold read_settings. by destruct (heap w !! l). Qed.

Lemma quiet_update_settings (l : ref) (f : Settings -> Settings) :
  quiet (update_settings l f).
Proof. intros w msg w'. unfold update_settings. by destruct (heap w !! l). Qed.

Lemma quiet_alloc_settings (s : Settings) : quiet (alloc_settings s).
Proof. intros w msg w'. discriminate. Qed.

Lemma quiet_on_randomizer method : quiet (on_randomizer method).
Proof.
  intros w msg w'. unfold on_randomizer.
  by destruct (method (self_randomizer w) (heap w)) as [what|[r h]].
Qed.

Lemma quiet_random_choice {A} (xs : list A) : quiet (random_choice xs).
Proof.
  intros w msg w'. unfold random_choice.
  destruct xs as [|x xs]; [discriminate|].
  destruct (rng w) as [|i g]; [discriminate|].
  by destruct ((x :: xs) !! (i mod length (x :: xs))%nat).
Qed.

Lemma quiet_microsecond_nonce : quiet microsecond_nonce.
Proof. intros w msg w'. discriminate. Qed.

Lemma quiet_open_rb (path : str) : quiet (open_rb path).
Proof.
  intros w msg w'. unfold open_rb.
  by destruct (files w !! resolve (cwd w) path).
Qed.

Lemma quiet_M_fold {A B} (body : A -> B -> M A) (xs : list B) :
  (forall acc x, quiet (body acc x)) ->
  forall acc, quiet (M_fold body acc xs).
Proof.
  intros Hbody. induction xs as [|x xs IH]; intros acc; simpl.
  - apply quiet_ret.
  - apply quiet_bind; [apply Hbody | intros acc'; apply IH].
Qed.

(** *** The methods *)

Create HintDb quiet.

#[local] Hint Resolve res_quiet_ok res_quiet_of_foreign res_quiet_dict_item
  res_quiet_dict_append quiet_ret quiet_get_world quiet_put_world
  quiet_get_randomizer quiet_put_randomizer quiet_read_settings
  quiet_update_settings quiet_alloc_settings quiet_on_randomizer
  quiet_random_choice quiet_microsecond_nonce quiet_open_rb : quiet.

Ltac quiet_step :=
  match goal with
  | |- forall _, _ => intros
  | |- quiet (_ ≫= _) => apply quiet_bind
  | |- quiet (lift _) => apply quiet_lift
  | |- quiet (raise _) => apply quiet_raise; intros ?; discriminate
  | |- quiet (M_fold _ _ _) => apply quiet_M_fold
  | |- res_quiet (_ ≫= _) => apply res_quiet_bind
  | |- res_quiet (Err _) => apply res_quiet_err; intros ?; discriminate
  | |- res_quiet (res_fold _ _ _) => apply res_quiet_fold
  | |- quiet (if ?b then _ else _) => destruct b
  | |- res_quiet (if ?b then _ else _) => destruct b
  | |- quiet (match ?x with _ => _ end) => destruct x
  | |- res_quiet (match ?x with _ => _ end) => destruct x
  | |- _ => solve [eauto with quiet]
  end.

Ltac quiet_tac := repeat quiet_step.

Lemma quiet_get_random_seed : quiet get_random_seed.
Proof. unfold get_random_seed. quiet_tac. Qed.
#[local] Hint Resolve quiet_get_random_seed : quiet.

Lemma quiet_draw_new_seed (fuel : nat) (seed0 new_seed : str) :
  quiet (draw_new_seed fuel seed0 new_seed).
Proof.
  revert new_seed. induction fuel as [|fuel IH]; intros new_seed; simpl.
  - destruct (bool_decide (seed0 = new_seed)); [|apply quiet_ret].
    intros w msg w'. discriminate.
  - quiet_tac.
Qed.
#[local] Hint Resolve quiet_draw_new_seed : quiet.

Lemma quiet___init__ (rom_data : bytes) : quiet (__init__ rom_data).
Proof. unfold __init__. quiet_tac. Qed.

Lemma quiet___convert_form_to_settings (form : GenerateForm) :
  quiet (__convert_form_to_settings form).
Proof. unfold __convert_form_to_settings. quiet_tac. Qed.
#[local] Hint Resolve quiet___convert_form_to_settings : quiet.

Lemma quiet_randomizer_settings_ref : quiet randomizer_settings_ref.
Proof. unfold randomizer_settings_ref. quiet_tac. Qed.
#[local] Hint Resolve quiet_randomizer_settings_ref : quiet.

Lemma quiet_configure_seed_from_form (form : GenerateForm) :
  quiet (configure_seed_from_form form).
Proof. unfold configure_seed_from_form. quiet_tac. Qed.

Lemma quiet_generate_rom : quiet generate_rom.
Proof. unfold generate_rom. quiet_tac. Qed.
#[local] Hint Resolve quiet_generate_rom : quiet.

Lemma quiet_get_seed_hash : quiet get_seed_hash.
Proof. unfold get_seed_hash. quiet_tac. Qed.

Lemma quiet_set_seed_hash (hash_bytes : bytes) : quiet (set_seed_hash hash_bytes).
Proof. unfold set_seed_hash. quiet_tac. Qed.

Lemma res_quiet_cleaned_flag (form : RomForm) (key : str) :
  res_quiet (cleaned_flag form key).
Proof. unfold cleaned_flag. quiet_tac. Qed.
#[local] Hint Resolve res_quiet_cleaned_flag : quiet.

Lemma res_quiet_cosmetic_flags_of_form (form : RomForm) :
  res_quiet (cosmetic_flags_of_form form).
Proof. unfold cosmetic_flags_of_form. quiet_tac. Qed.
#[local] Hint Resolve res_quiet_cosmetic_flags_of_form : quiet.

Lemma quiet_assign_name (l : ref) (i : nat) (v : str) : quiet (assign_name l i v).
Proof. unfold assign_name. quiet_tac. Qed.

Lemma quiet_assign_ctoption (l : ref) f : quiet (assign_ctoption l f).
Proof. unfold assign_ctoption. quiet_tac. Qed.
#[local] Hint Resolve quiet_assign_name quiet_assign_ctoption : quiet.

Lemma quiet_when_given {A} (v : option A) (assign : A -> M unit) :
  (forall a, quiet (assign a)) -> quiet (when_given v assign).
Proof. intros Hassign. unfold when_given. quiet_tac. Qed.

Lemma quiet_when_nonzero (v : option Z) (assign : Z -> M unit) :
  (forall a, quiet (assign a)) -> quiet (when_nonzero v assign).
Proof. intros Hassign. unfold when_nonzero. quiet_tac. Qed.

Lemma quiet_apply_rom_form (l : ref) (form : RomForm) :
  quiet (apply_rom_form l form).
Proof.
  unfold apply_rom_form.
  repeat first [ apply quiet_when_given | apply quiet_when_nonzero | quiet_step ].
Qed.
#[local] Hint Resolve quiet_apply_rom_form : quiet.

Lemma quiet_set_settings_and_config (l : ref) (c : RandoConfig) form :
  quiet (set_settings_and_config l c form).
Proof. unfold set_settings_and_config. quiet_tac. Qed.

Lemma quiet_get_settings : quiet get_settings.
Proof. unfold get_settings. quiet_tac. Qed.

Lemma quiet_get_config : quiet get_config.
Proof. unfold get_config. quiet_tac. Qed.

Lemma quiet_get_rom_name (share_id : str) : quiet (get_rom_name share_id).
Proof. unfold get_rom_name. quiet_tac. Qed.

Lemma quiet_get_base_rom : quiet get_base_rom.
Proof. unfold get_base_rom. quiet_tac. Qed.
#[local] Hint Resolve quiet_get_base_rom : quiet.

Lemma quiet_spoiler_randomizer (c : RandoConfig) (l : ref) hash_bytes :
  quiet (spoiler_randomizer c l hash_bytes).
Proof. unfold spoiler_randomizer. quiet_tac. Qed.

Lemma quiet_write_with writer (rando : Randomizer) (text : str) :
  quiet (write_with writer rando text).
Proof. unfold write_with. quiet_tac. Qed.
#[local] Hint Resolve quiet_spoiler_randomizer quiet_write_with : quiet.

Lemma quiet_get_spoiler_log (c : RandoConfig) (l : ref) hash_bytes :
  quiet (get_spoiler_log c l hash_bytes).
Proof. unfold get_spoiler_log. quiet_tac. Qed.

Lemma quiet_get_json_spoiler_log (c : RandoConfig) (l : ref) hash_bytes :
  quiet (get_json_spoiler_log c l hash_bytes).
Proof. unfold get_json_spoiler_log. quiet_tac. Qed.

Lemma quiet_get_share_details (c : RandoConfig) (l : ref) hash_bytes :
  quiet (get_share_details c l hash_bytes).
Proof. unfold get_share_details. quiet_tac. Qed.

Lemma res_quiet_objectives_loop (num_objs : Z) (objs : list Objective) :
  forall ind log, res_quiet (objectives_loop num_objs ind objs log).
Proof.
  induction objs as [|objective rest IH]; intros ind log; simpl.
  - apply res_quiet_ok.
  - destruct (Z.of_nat ind >=? num_objs); [apply res_quiet_ok|].
    apply res_quiet_bind; [apply res_quiet_dict_append | intros log'; apply IH].
Qed.
#[local] Hint Resolve res_quiet_objectives_loop : quiet.

Lemma res_quiet_get_web_spoiler_log (s : Settings) (c : RandoConfig) :
  res_quiet (get_web_spoiler_log s c).
Proof. unfold get_web_spoiler_log. quiet_tac. Qed.

Lemma res_quiet__jotjson_encode (data : jot_data) :
  res_quiet (_jotjson_encode data).
Proof. unfold _jotjson_encode. quiet_tac. Qed.
#[local] Hint Resolve res_quiet_get_web_spoiler_log res_quiet__jotjson_encode
  : quiet.

Lemma quiet_read_text (path : str) : quiet (read_text path).
Proof.
  intros w msg w'. unfold read_text.
  destruct (files w !! resolve (cwd w) path); [|discriminate].
  apply quiet_lift, res_quiet_of_foreign.
Qed.

Lemma res_quiet_json_item (key : str) (j : json) : res_quiet (json_item key j).
Proof. unfold json_item. quiet_tac. Qed.

Lemma res_quiet_json_lower (j : json) : res_quiet (json_lower j).
Proof. unfold json_lower. quiet_tac. Qed.
#[local] Hint Resolve quiet_read_text res_quiet_json_item res_quiet_json_lower
  : quiet.

Lemma quiet_get_presets_map : quiet get_presets_map.
Proof. unfold get_presets_map. quiet_tac. Qed.

Lemma quiet_void {A} (m : M A) : quiet m -> quiet (void m).
Proof. intros Hm. unfold void. quiet_tac. Qed.

(** The part of [configure_seed_from_settings] after the check of the
    mystery flag. *)
Lemma configure_seed_from_settings_raises
    (l : ref) (is_race_seed : bool) (w w' : World) (msg : str) :
  configure_seed_from_settings l is_race_seed w
    = Raise (InvalidSettingsException msg) w' ->
  exists s, object_at l w = Some s /\ flag_in (GF_value MYSTERY) (gameflags s) = true.
Proof.
  unfold configure_seed_from_settings, object_at.
  unfold mbind at 1, M_mbind at 1, M_bind at 1, read_settings at 1.
  destruct (heap w !! l) as [s|] eqn:Hs; [|discriminate].
  destruct (flag_in (GF_value MYSTERY) (gameflags s)) eqn:Hflag; [by eauto|].
  intros Hrun. exfalso. revert Hrun.
  match goal with |- ?m w = _ -> False => change (m w <> Raise (InvalidSettingsException msg) w') end.
  revert w' msg. revert w Hs.
  match goal with
  | |- forall w, _ -> forall w' msg, ?m w <> _ =>
      assert (Hq : quiet m); [| intros w _ w' msg; apply Hq]
  end.
  quiet_tac.
Qed.

(** C1.  With the mystery flag among the game flags of the object passed,
    [configure_seed_from_settings] raises [InvalidSettingsException], for
    either value of [is_race_seed], and nothing has been changed. *)
Theorem configure_seed_from_settings_mystery
    (l : ref) (is_race_seed : bool) (w : World) (s : Settings) :
  object_at l w = Some s ->
  flag_in (GF_value MYSTERY) (gameflags s) = true ->
  configure_seed_from_settings l is_race_seed w
    = Raise (InvalidSettingsException (lit "Mystery seeds cannot be cloned.")) w.
Proof.
  intros Hs Hflag. unfold object_at in Hs.
  unfold configure_seed_from_settings.
  unfold mbind at 1, M_mbind at 1, M_bind at 1, read_settings at 1.
  rewrite Hs. by rewrite Hflag.
Qed.

(** C7.  [InvalidSettingsException] leaves no call but that of
    [configure_seed_from_settings], and leaves that one only when the game
    flags of the object passed have the mystery flag. *)
Theorem InvalidSettingsException_only_for_mystery
    (op : call) (w w' : World) (msg : str) :
  run op w = Raise (InvalidSettingsException msg) w' ->
  exists l is_race_seed s,
    op = Call_configure_seed_from_settings l is_race_seed /\ object_at l w = Some s /\ flag_in (GF_value MYSTERY) (gameflags s) = true.
Proof.
  intros Hrun.
  assert (Hquiet : forall m : M unit, quiet m -> m w = Raise (InvalidSettingsException msg) w' -> False)
    by (intros m Hm; apply Hm).
  destruct op; simpl in Hrun;
    try solve [exfalso; revert Hrun; apply Hquiet;
         first [ apply quiet_void | idtac ];
         first [ apply quiet___init__ | apply quiet_configure_seed_from_form
               | apply quiet_generate_rom | apply quiet_get_seed_hash
               | apply quiet_set_seed_hash | apply quiet_set_settings_and_config
               | apply quiet_get_settings | apply quiet_get_config
               | apply quiet_get_rom_name
               | apply quiet___convert_form_to_settings
               | apply quiet_get_spoiler_log | apply quiet_get_json_spoiler_log
               | apply quiet_get_presets_map | apply quiet_get_random_seed
               | apply quiet_get_base_rom | apply quiet_get_share_details
               | quiet_tac ]].
  exists l, is_race_seed.
  unfold void in Hrun. unfold mbind at 1, M_mbind at 1, M_bind at 1 in Hrun.
  destruct (configure_seed_from_settings l is_race_seed w)
    as [nonce w1|e w1|] eqn:Hcall; try discriminate.
  injection Hrun as -> ->.
  destruct (configure_seed_from_settings_raises l is_race_seed w w' msg Hcall)
    as (s & Hs & Hflag).
  by exists s.
Qed.

End Exceptions.

Lemma configure_seed_from_settings_mystery_witness :
  @configure_seed_from_settings demo_types demo_lib 1%positive true mystery_world
  = Raise (InvalidSettingsException (lit "Mystery seeds cannot be cloned."))
      mystery_world.
Proof.
  apply (@configure_seed_from_settings_mystery demo_types demo_lib 1%positive
           true mystery_world
           (demo_settings (demo_flag MYSTERY) (lit "GatoToma") 5)).
  - reflexivity.
  - reflexivity.
Defined.

Lemma InvalidSettingsException_only_for_mystery_witness :
  exists l is_race_seed s,
    Call_configure_seed_from_settings (T := demo_types) 1%positive false
      = Call_configure_seed_from_settings l is_race_seed /\
    object_at l mystery_world = Some s /\
    flag_in (demo_flag MYSTERY) (gameflags s) = true.
Proof.
  apply (@InvalidSettingsException_only_for_mystery demo_types demo_lib
           demo_platform demo_unicode
           (Call_configure_seed_from_settings 1%positive false)
           mystery_world mystery_world
           (lit "Mystery seeds cannot be cloned.")).
  reflexivity.
Defined.

(** ** Dictionaries *)

Section DictProperties.
Context {K V : Type} `{EqDecision K}.
Implicit Types (k : K) (v : V) (d : pydict K V).

Lemma dict_get_set_eq k v d : dict_get k (dict_set k v d) = Some v.
Proof.
  induction d as [|[k' v'] d IH]; simpl.
  - by rewrite decide_True.
  - destruct (decide (k = k')) as [->|Hne]; simpl.
    + by rewrite decide_True.
    + by rewrite decide_False.
Qed.

Lemma dict_get_set_ne k k' v d :
  k <> k' -> dict_get k' (dict_set k v d) = dict_get k' d.
Proof.
  intros Hne. induction d as [|[k0 v0] d IH]; simpl.
  - by rewrite decide_False.
  - destruct (decide (k = k0)) as [->|Hne0]; simpl.
    + by rewrite !decide_False.
    + destruct (decide (k' = k0)); [done | apply IH].
Qed.

Lemma dict_keys_set_present k v v0 d :
  dict_get k d = Some v0 -> dict_keys (dict_set k v d) = dict_keys d.
Proof.
  unfold dict_keys. induction d as [|[k' v'] d IH]; simpl; [done|].
  destruct (decide (k = k')) as [->|Hne]; simpl; [done|].
  intros Hget. by rewrite IH.
Qed.

Lemma dict_get_None_keys k d : dict_get k d = None <-> k ∉ dict_keys d.
Proof.
  unfold dict_keys. induction d as [|[k' v'] d IH]; simpl.
  - split; [intros _; apply not_elem_of_nil | done].
  - rewrite not_elem_of_cons. destruct (decide (k = k')) as [->|Hne].
    + split; [done | by intros [? _]].
    + rewrite IH. tauto.
Qed.

Lemma dict_set_absent k v d :
  k ∉ dict_keys d -> dict_set k v d = d ++ [(k, v)].
Proof.
  unfold dict_keys. induction d as [|[k' v'] d IH]; simpl; [done|].
  rewrite not_elem_of_cons. intros [Hne Hnotin].
  rewrite decide_False by done. by rewrite IH.
Qed.

End DictProperties.

Lemma res_bind_ok {A B} (r : res A) (k : A -> res B) (b : B) :
  r ≫= k = Ok b -> exists a, r = Ok a /\ k a = Ok b.
Proof.
  unfold mbind, res_mbind, res_bind. destruct r as [a|e]; [by eauto | done].
Qed.

Lemma dict_append_ok {K V} `{EqDecision K} (k : K) (x : V)
    (d d' : pydict K (list V)) :
  dict_append k x d = Ok d' ->
  exists l, dict_get k d = Some l /\ d' = dict_set k (l ++ [x]) d.
Proof.
  unfold dict_append. intros (l & Hitem & Hset)%res_bind_ok.
  unfold dict_item in Hitem. destruct (dict_get k d) as [l0|]; [|done].
  injection Hitem as ->. injection Hset as <-. by eauto.
Qed.

Lemma res_fold_invariant {A B} (I : A -> Prop) (body : A -> B -> res A)
    (xs : list B) :
  (forall acc x acc', I acc -> body acc x = Ok acc' -> I acc') ->
  forall acc r, I acc -> res_fold body acc xs = Ok r -> I r.
Proof.
  intros Hbody. induction xs as [|x xs IH]; intros acc r Hacc; simpl.
  - by intros [= <-].
  - intros (acc' & Hstep & Hrest)%res_bind_ok. eauto.
Qed.

(** ** The web spoiler log *)

Section SpoilerLog.
Context {T : RandoTypes} {L : RandoLib} {U : Unicode}.

Lemma log_inv_append (key : string) (x : entry) (objs : list entry)
    (log log' : spoiler) :
  lit key <> lit "objectives" ->
  log_inv objs log ->
  dict_append (lit key) x log = Ok log' ->
  log_inv objs log'.
Proof.
  intros Hkey [Hkeys Hobjs] (l & Hget & ->)%dict_append_ok. split.
  - by rewrite (dict_keys_set_present _ _ l).
  - unfold log_list. by rewrite dict_get_set_ne.
Qed.

Lemma objectives_loop_spec (num_objs : Z) (objs : list Objective) :
  forall (ind : nat) (log log' : spoiler) (l : list entry),
    log_inv l log ->
    objectives_loop num_objs ind objs log = Ok log' ->
    log_inv
      (l ++ imap (fun i o => objective_entry (ind + i) o)
              (take (Z.to_nat (num_objs - Z.of_nat ind)) objs))
      log'.
Proof.
  induction objs as [|objective rest IH]; intros ind log log' l Hinv; simpl.
  - intros [= <-]. by rewrite take_nil, app_nil_r.
  - destruct (Z.geb_spec (Z.of_nat ind) num_objs) as [Hge|Hlt].
    + intros [= <-].
      replace (Z.to_nat (num_objs - Z.of_nat ind)) with 0%nat by lia.
      by rewrite app_nil_r.
    + intros (log1 & Happ & Hrest)%res_bind_ok.
      apply dict_append_ok in Happ as (l0 & Hget & ->).
      destruct Hinv as [Hkeys Hobjs]. unfold log_list in Hobjs.
      rewrite Hobjs in Hget. injection Hget as <-.
      replace (Z.to_nat (num_objs - Z.of_nat ind))
        with (S (Z.to_nat (num_objs - Z.of_nat (S ind)))) by lia.
      simpl. rewrite Nat.add_0_r.
      rewrite (cons_middle (objective_entry ind objective)), app_assoc.
      rewrite (imap_ext _ (fun i o => objective_entry (S ind + i) o));
        [| intros i o _; simpl; f_equal; lia].
      eapply (IH (S ind)); [|exact Hrest]. split.
      * by rewrite (dict_keys_set_present _ _ l).
      * unfold log_list. apply dict_get_set_eq.
Qed.

(** The list of objectives the method leaves in the log. *)
Lemma get_web_spoiler_log_inv (s : Settings) (c : RandoConfig) (log : spoiler) :
  get_web_spoiler_log s c = Ok log ->
  log_inv
    (if flag_in (GF_value BUCKET_LIST) (gameflags s)
     then imap objective_entry
            (take (Z.to_nat (num_objectives (bucket_settings s))) (objectives c))
     else [])
    log.
Proof.
  unfold get_web_spoiler_log.
  intros (log1 & Hobjs & Hrest)%res_bind_ok.
  apply res_bind_ok in Hrest as (log2 & Hchars & Hrest).
  apply res_bind_ok in Hrest as (log3 & Hkeys & Hrest).
  apply res_bind_ok in Hrest as (log4 & Hbosses & Hrest).
  apply res_bind_ok in Hrest as (spheres & _ & Hspheres).
  set (objs := if flag_in (GF_value BUCKET_LIST) (gameflags s) then _ else _).
  assert (H1 : log_inv objs log1).
  { subst objs. destruct (flag_in (GF_value BUCKET_LIST) (gameflags s)).
    - apply (objectives_loop_spec _ _ 0 _ _ []) in Hobjs; [| by split].
      by rewrite Z.sub_0_r in Hobjs.
    - injection Hobjs as <-. by split. }
  clearbody objs. clear Hobjs.
  assert (H2 : log_inv objs log2).
  { revert Hchars. apply (res_fold_invariant (log_inv objs)); [|done].
    intros acc x acc' Hacc (recruit & _ & Hbody)%res_bind_ok.
    apply res_bind_ok in Hbody as (reassign & _ & Happ).
    eapply (log_inv_append "characters"); [done | exact Hacc | exact Happ]. }
  assert (H3 : log_inv objs log3).
  { revert Hkeys. apply (res_fold_invariant (log_inv objs)); [|done].
    intros acc x acc' Hacc Happ.
    eapply (log_inv_append "key_items"); [done | exact Hacc | exact Happ]. }
  assert (H4 : log_inv objs log4).
  { revert Hbosses. apply (res_fold_invariant (log_inv objs)); [|done].
    intros acc x acc' Hacc (boss & _ & Hbody)%res_bind_ok.
    apply res_bind_ok in Hbody as (boss_str & _ & Happ).
    eapply (log_inv_append "bosses"); [done | exact Hacc | exact Happ]. }
  revert Hspheres. apply (res_fold_invariant (log_inv objs)); [|done].
  intros acc line acc' Hacc. destruct (rgx_search line) as [m|].
  - intros Happ. eapply (log_inv_append "spheres"); [done | exact Hacc | exact Happ].
  - by intros [= <-].
Qed.

(** C4.  The dictionary [get_web_spoiler_log] returns has the five keys
    [characters], [key_items], [bosses], [objectives] and [spheres] and no
    other, and a list under each. *)
Theorem get_web_spoiler_log_keys (s : Settings) (c : RandoConfig) (log : spoiler) :
  get_web_spoiler_log s c = Ok log ->
  dict_keys log = spoiler_keys /\
  forall key, key ∈ spoiler_keys ->
              exists items : list entry, dict_get key log = Some items.
Proof.
  intros [Hkeys _]%get_web_spoiler_log_inv. split; [done|].
  intros key Hin. rewrite <- Hkeys in Hin.
  destruct (dict_get key log) as [items|] eqn:Hget; [by eauto|].
  by apply dict_get_None_keys in Hget.
Qed.

Lemma objective_entry_name (ind : nat) (objective : Objective) :
  dict_get (lit "name") (objective_entry ind objective)
  = Some (Some (objective_name ind)).
Proof. reflexivity. Qed.

(** C10.  The list under [objectives] is empty when the bucket list flag
    is not among the game flags.  When it is, the list holds as many
    entries as the smaller of [num_objectives] and the number of objectives
    of the configuration, so that, [num_objectives] being a count, it is no
    longer than [num_objectives]; its entry at index [i] is named
    [Objective i+1]. *)
Theorem get_web_spoiler_log_objectives
    (s : Settings) (c : RandoConfig) (log : spoiler) :
  get_web_spoiler_log s c = Ok log ->
  exists objs,
    log_list "objectives" log = Some objs /\
    (flag_in (GF_value BUCKET_LIST) (gameflags s) = false -> objs = []) /\
    (flag_in (GF_value BUCKET_LIST) (gameflags s) = true ->
     length objs
     = (Z.to_nat (num_objectives (bucket_settings s)) `min` length (objectives c))%nat /\
     (0 <= num_objectives (bucket_settings s) ->
      Z.of_nat (length objs) <= num_objectives (bucket_settings s)) /\
     forall i e, objs !! i = Some e ->
                 dict_get (lit "name") e = Some (Some (objective_name i))).
Proof.
  intros [_ Hobjs]%get_web_spoiler_log_inv.
  eexists. split; [exact Hobjs|]. split.
  - by intros ->.
  - intros ->. rewrite length_imap, length_take. repeat split; [lia|].
    intros i e. rewrite list_lookup_imap.
    destruct (take _ (objectives c) !! i) as [o|]; [|done].
    intros [= <-]. apply objective_entry_name.
Qed.

End SpoilerLog.

Lemma get_web_spoiler_log_keys_witness :
  exists log,
    @get_web_spoiler_log demo_types demo_lib demo_unicode
      (bucket_settings_of 1) two_objectives = Ok log /\
    dict_keys log = spoiler_keys.
Proof.
  eexists. split; [vm_compute; reflexivity|].
  eapply (@get_web_spoiler_log_keys demo_types demo_lib demo_unicode
            (bucket_settings_of 1) two_objectives).
  vm_compute. reflexivity.
Defined.

Lemma get_web_spoiler_log_objectives_witness :
  exists objs,
    log_list "objectives"
      (match @get_web_spoiler_log demo_types demo_lib demo_unicode
               (bucket_settings_of 1) two_objectives with
       | Ok log => log
       | Err _ => []
       end) = Some objs /\
    Z.of_nat (length objs) <= 1 /\
    forall i e, objs !! i = Some e ->
                dict_get (lit "name") e = Some (Some (objective_name i)).
Proof.
  destruct (@get_web_spoiler_log_objectives demo_types demo_lib demo_unicode
              (bucket_settings_of 1) two_objectives _ eq_refl)
    as (objs & Hobjs & _ & Hflag).
  destruct (Hflag eq_refl) as (_ & Hbound & Hnames).
  exists objs. split; [exact Hobjs|]. split; [|exact Hnames].
  apply Hbound. simpl. lia.
Defined.

(** ** The inverted enumeration maps *)

Section DictOfItems.
Context {K V : Type} `{EqDecision K}.

Lemma dict_of_items_from (items acc : pydict K V) :
  NoDup (dict_keys (acc ++ items)) ->
  fold_left (fun d kv => dict_set kv.1 kv.2 d) items acc = acc ++ items.
Proof.
  revert acc. induction items as [|[k v] items IH]; intros acc Hnodup; simpl.
  - by rewrite app_nil_r.
  - rewrite (cons_middle (k, v)), app_assoc in Hnodup |- *.
    rewrite dict_set_absent.
    + by apply IH.
    + unfold dict_keys in Hnodup.
      rewrite !map_app in Hnodup. apply NoDup_app in Hnodup as [Hacc _].
      apply NoDup_app in Hacc as (_ & Hdisj & _).
      intros Hin. apply (Hdisj k Hin). simpl. left.
Qed.

(** A display whose keys differ is the dictionary of its items. *)
Lemma dict_of_items_nodup (items : list (K * V)) :
  NoDup (map fst items) -> dict_of_items items = items.
Proof. intros Hnodup. by apply (dict_of_items_from items []). Qed.

Lemma dict_get_elem (k : K) (v : V) (d : pydict K V) :
  NoDup (dict_keys d) -> (k, v) ∈ d -> dict_get k d = Some v.
Proof.
  unfold dict_keys. induction d as [|[k' v'] d IH]; simpl.
  - intros _ Hin. by apply elem_of_nil in Hin.
  - intros [Hnotin Hnodup]%NoDup_cons [[= -> ->]|Hin]%elem_of_cons.
    + by rewrite decide_True.
    + destruct (decide (k = k')) as [->|Hne]; [|by apply IH].
      exfalso. apply Hnotin. apply list_elem_of_fmap. by exists (k', v).
Qed.

End DictOfItems.

Section InverseMaps.
Context {T : RandoTypes}.

(** The comprehension of lines 475-478 over any dictionary in place of
    [enums_map]. *)
Lemma inverted_lookup (em : pydict str (list str + pydict str str))
    (k : str) (mapping : pydict str str) :
  dict_get k em = Some (inr mapping) ->
  dict_get k
    (omap (fun item : str * (list str + pydict str str) =>
             match item.2 with
             | inr m => Some (item.1, invert_mapping m)
             | inl _ => None
             end) em)
  = Some (invert_mapping mapping).
Proof.
  induction em as [|[k' [l|m]] em IH]; simpl; [done| |].
  - destruct (decide (k = k')); [done | apply IH].
  - destruct (decide (k = k')); [by intros [= ->] | apply IH].
Qed.

Lemma invert_mapping_lookup (mapping : pydict str str)
    (form_value enum_string : str) :
  NoDup (map snd (dict_items mapping)) ->
  (form_value, enum_string) ∈ dict_items mapping ->
  dict_get enum_string (invert_mapping mapping) = Some form_value.
Proof.
  unfold invert_mapping, dict_items. intros Hnodup Hin.
  assert (Hkeys : map fst (map (fun item : str * str => (item.2, item.1)) mapping)
                  = map snd mapping)
    by (rewrite map_map; by apply map_ext).
  rewrite dict_of_items_nodup by (by rewrite Hkeys).
  apply dict_get_elem.
  - unfold dict_keys. by rewrite Hkeys.
  - apply list_elem_of_fmap. by exists (form_value, enum_string).
Qed.

Lemma get_inv_enums_map_keys :
  dict_keys get_inv_enums_map = [lit "gameflags"; lit "roflags"].
Proof. reflexivity. Qed.

(** C9.  The keys of [get_inv_enums_map] are the keys of [enums_map] that
    hold a dictionary, and under such a key every enumeration string leads
    back to its form value, provided the enumeration strings under the key
    are pairwise distinct. *)
Theorem get_inv_enums_map_inverse :
  (forall k, k ∈ dict_keys get_inv_enums_map <->
             exists mapping, dict_get k enums_map = Some (inr mapping)) /\
  (forall k mapping,
     dict_get k enums_map = Some (inr mapping) ->
     NoDup (map snd (dict_items mapping)) ->
     exists inverse,
       dict_get k get_inv_enums_map = Some inverse /\
       forall form_value enum_string,
         (form_value, enum_string) ∈ dict_items mapping ->
         dict_get enum_string inverse = Some form_value).
Proof.
  assert (Hlookup : forall k mapping,
             dict_get k enums_map = Some (inr mapping) ->
             dict_get k get_inv_enums_map = Some (invert_mapping mapping)).
  { intros k mapping Hget. unfold get_inv_enums_map.
    rewrite dict_of_items_nodup.
    - by apply inverted_lookup.
    - change (NoDup [lit "gameflags"; lit "roflags"]).
      apply NoDup_cons. split; [|apply NoDup_singleton].
      intros Hin%list_elem_of_In. simpl in Hin. by destruct Hin. }
  split.
  - intros k. split.
    + rewrite get_inv_enums_map_keys.
      intros [->|[->|[]%elem_of_nil]%elem_of_cons]%elem_of_cons;
        eexists; reflexivity.
    + intros [mapping Hget%Hlookup].
      destruct (decide (k ∈ dict_keys get_inv_enums_map)) as [|Hnotin]; [done|].
      apply dict_get_None_keys in Hnotin. congruence.
  - intros k mapping Hget Hnodup. exists (invert_mapping mapping).
    split; [by apply Hlookup|].
    intros form_value enum_string. by apply invert_mapping_lookup.
Qed.

End InverseMaps.

Lemma get_inv_enums_map_inverse_witness :
  exists inverse,
    dict_get (lit "gameflags") (@get_inv_enums_map demo_types) = Some inverse /\
    dict_get (lit "GameFlags.MYSTERY") inverse = Some (lit "mystery_seed").
Proof.
  destruct (proj2 (@get_inv_enums_map_inverse demo_types) (lit "gameflags") _ eq_refl)
    as (inverse & Hinverse & Hback).
  - apply (@bool_decide_unpack _ (NoDup_dec _)). vm_compute. exact I.
  - exists inverse. split; [exact Hinverse|].
    apply Hback. apply list_elem_of_lookup. exists 12%nat. reflexivity.
Defined.

(** ** Cloning a seed *)

Section Clone.
Context {T : RandoTypes} {L : RandoLib}.

Lemma random_choice_frame {A} (xs : list A) (w w1 : World) (x : A) :
  random_choice xs w = Return x w1 -> exists g, w1 = set_rng g w.
Proof.
  unfold random_choice. destruct xs as [|x0 xs]; [done|].
  destruct (rng w) as [|i g]; [done|].
  destruct ((x0 :: xs) !! _); [|done].
  intros [= _ <-]. by exists g.
Qed.

Lemma get_random_seed_frame (w w1 : World) (drawn : str) :
  get_random_seed w = Return drawn w1 -> exists g, w1 = set_rng g w.
Proof.
  unfold get_random_seed, get_world.
  unfold mbind, M_mbind, M_bind, mret, M_mret, lift.
  destruct (of_foreign (read_names (files w) (cwd w))) as [names|e]; [|done].
  destruct (random_choice names w) as [a wa| |] eqn:Ha; [|done|done].
  destruct (random_choice names wa) as [b wb| |] eqn:Hb; [|done|done].
  intros [= _ <-].
  apply random_choice_frame in Ha as [g ->].
  apply random_choice_frame in Hb as [g' ->]. by exists g'.
Qed.

Lemma draw_new_seed_frame (fuel : nat) (seed0 : str) :
  forall (new_seed : str) (w w1 : World) (drawn : str),
    draw_new_seed fuel seed0 new_seed w = Return drawn w1 ->
    drawn <> seed0 /\ ((exists g, w1 = set_rng g w) \/ w1 = w).
Proof.
  induction fuel as [|fuel IH]; intros new_seed w w1 drawn; simpl.
  - destruct (bool_decide (seed0 = new_seed)) eqn:Heq; [done|].
    intros [= <- <-]. apply bool_decide_eq_false in Heq. split; [congruence | by right].
  - destruct (bool_decide (seed0 = new_seed)) eqn:Heq.
    + unfold mbind, M_mbind, M_bind.
      destruct (get_random_seed w) as [d wd| |] eqn:Hd; simpl; [|done|done].
      intros [Hne Hw]%IH. split; [done|]. left.
      apply get_random_seed_frame in Hd as [g ->].
      destruct Hw as [[g' ->]| ->]; eauto.
    + intros [= <- <-]. apply bool_decide_eq_false in Heq. split; [congruence | by right].
Qed.

Lemma M_bind_Return {A B} (m : M A) (f : A -> M B) (w w' : World) (b : B) :
  M_bind m f w = Return b w' ->
  exists a w1, m w = Return a w1 /\ f a w1 = Return b w'.
Proof.
  unfold M_bind. destruct (m w) as [a w1| |]; [|done|done]. by exists a, w1.
Qed.

Lemma random_choice_inv {A} (xs : list A) (w w1 : World) (x : A) :
  random_choice xs w = Return x w1 ->
  exists i g,
    rng w = i :: g /\ xs !! (i mod length xs)%nat = Some x /\ w1 = set_rng g w.
Proof.
  unfold random_choice. destruct xs as [|x0 xs]; [done|].
  destruct (rng w) as [|i g]; [done|].
  destruct ((x0 :: xs) !! _) as [y|] eqn:Hy; [|done].
  intros [= <- <-]. by exists i, g.
Qed.

Lemma get_random_seed_inv (w w1 : World) (drawn : str) :
  get_random_seed w = Return drawn w1 ->
  exists names i j g,
    read_names (files w) (cwd w) = inr names /\
    rng w = i :: j :: g /\
    seed_of_draws names i j = Some drawn /\
    w1 = set_rng g w.
Proof.
  unfold get_random_seed, get_world.
  unfold mbind, M_mbind, M_bind, mret, M_mret, lift.
  destruct (read_names (files w) (cwd w)) as [what|names]; [done|]. simpl.
  destruct (random_choice names w) as [a wa| |] eqn:Ha; [|done|done].
  destruct (random_choice names wa) as [b wb| |] eqn:Hb; [|done|done].
  intros [= <- <-].
  apply random_choice_inv in Ha as (i & g & Hrng & Hi & ->).
  apply random_choice_inv in Hb as (j & g' & Hrng' & Hj & ->).
  simpl in Hrng'. subst g.
  exists names, i, j, g'. repeat split; [done|].
  unfold seed_of_draws. rewrite Hi, Hj. done.
Qed.

Lemma draw_new_seed_first (old : str) (fuel : nat) :
  forall (w w' : World) (new_seed : str),
    M_bind get_random_seed (draw_new_seed fuel old) w = Return new_seed w' ->
    exists names g,
      read_names (files w) (cwd w) = inr names /\
      first_new_seed names old (rng w) = Some (new_seed, g) /\
      new_seed <> old /\
      w' = set_rng g w.
Proof.
  induction fuel as [|fuel IH]; intros w w' new_seed;
    (intros (drawn & w1 & Hdrawn & Hloop)%M_bind_Return;
     apply get_random_seed_inv in Hdrawn
       as (names & i & j & g & Hnames & Hrng & Hseed & ->);
     exists names; rewrite Hrng; simpl; rewrite Hseed;
     revert Hloop; simpl; case_bool_decide as Hold).
  - done.
  - intros [= <- <-]. exists g. repeat split; congruence.
  - intros (names' & g' & Hnames' & Hfirst & Hne & ->)%IH.
    simpl in Hnames', Hfirst. rewrite Hnames in Hnames'.
    injection Hnames' as <-. by exists g'.
  - intros [= <- <-]. exists g. repeat split; congruence.
Qed.

(** The bound on the rounds is never what ends the loop: with more rounds
    than there are draws, every bound gives the same outcome. *)
Lemma draw_new_seed_fuel (old : str) (fuel : nat) :
  forall (fuel' : nat) (new_seed : str) (w : World),
    (length (rng w) < fuel)%nat -> (length (rng w) < fuel')%nat ->
    draw_new_seed fuel old new_seed w = draw_new_seed fuel' old new_seed w.
Proof.
  induction fuel as [|fuel IH]; intros fuel' new_seed w Hfuel Hfuel'; [lia|].
  destruct fuel' as [|fuel']; [lia|].
  simpl. case_bool_decide; [|done].
  unfold mbind, M_mbind, M_bind.
  destruct (get_random_seed w) as [drawn w1| |] eqn:Hdrawn; [|done|done].
  apply get_random_seed_inv in Hdrawn as (names & i & j & g & _ & Hrng & _ & ->).
  rewrite Hrng in Hfuel, Hfuel'. simpl in Hfuel, Hfuel'.
  apply IH; simpl; lia.
Qed.

(** C5, as the code has it.  [configure_seed_from_settings] is no
    conversion without effect.  When it returns, with [s] the object passed
    as it was before the call: [new_seed] is the first seed, in the order of
    the draws, that two names drawn from the library's list give when joined
    and that differs from the seed of [s], and the draws up to it are used
    up; the library's [set_random_config] has been called with the object
    passed as the randomizer's settings and with [new_seed], followed by the
    nonce, as its seed (the nonce is empty when the seed is no race seed);
    for a race seed the seed of the randomizer's settings is set to
    [new_seed] after that call.  When [set_random_config] leaves the
    settings objects alone, the object passed differs in the end from [s] by
    its seed [new_seed] alone, no other object has changed, and the object
    is the randomizer's settings. *)
Theorem configure_seed_from_settings_effect
    (l : ref) (is_race_seed : bool) (w w' : World) (nonce : str) (s : Settings) :
  object_at l w = Some s ->
  configure_seed_from_settings l is_race_seed w = Return nonce w' ->
  exists names new_seed g r' h',
    read_names (files w) (cwd w) = inr names /\
    first_new_seed names (seed s) (rng w) = Some (new_seed, g) /\
    new_seed <> seed s /\
    set_random_config (set_settings (Some l) (self_randomizer w))
      (<[l := set_seed (new_seed ++ nonce) s]> (heap w)) = inr (r', h') /\
    rng w' = g /\
    self_randomizer w' = r' /\
    (if is_race_seed
     then exists l' s', settings r' = Some l' /\ h' !! l' = Some s' /\
                        heap w' = <[l' := set_seed new_seed s']> h'
     else heap w' = h') /\
    (keeps_settings L ->
     heap w' = <[l := set_seed new_seed s]> (heap w) /\
     settings (self_randomizer w') = Some l).
Proof.
  intros Hs Hrun. unfold object_at in Hs.
  unfold configure_seed_from_settings in Hrun.
  apply M_bind_Return in Hrun as (s1 & w1 & Hread & Hrun).
  unfold read_settings in Hread. rewrite Hs in Hread.
  injection Hread as Hs1 Hw1. subst s1 w1.
  destruct (flag_in (GF_value MYSTERY) (gameflags s)); [done|].
  apply M_bind_Return in Hrun as (r & w2 & Hget & Hrun).
  injection Hget as Hr Hw2. subst r w2.
  apply M_bind_Return in Hrun as (u & w3 & Hput & Hrun).
  injection Hput as Hu Hw3. subst w3. clear Hu.
  apply M_bind_Return in Hrun as (s3 & w4 & Hread & Hrun).
  unfold read_settings in Hread. simpl in Hread. rewrite Hs in Hread.
  injection Hread as Hs3 Hw4. subst s3 w4.
  apply M_bind_Return in Hrun as (w0 & w5 & Hget & Hrun).
  injection Hget as Hw0 Hw5. subst w0 w5.
  apply M_bind_Return in Hrun as (new_seed & w6 & Hdraw & Hrun).
  simpl in Hdraw. rewrite bool_decide_eq_true_2 in Hdraw by done.
  apply draw_new_seed_first in Hdraw as (names & g & Hnames & Hfirst & Hne & ->).
  simpl in Hnames, Hfirst.
  apply M_bind_Return in Hrun as (u' & w7 & Hupdate & Hrun).
  unfold update_settings in Hupdate. simpl in Hupdate. rewrite Hs in Hupdate.
  injection Hupdate as Hu' Hw7. subst w7. clear Hu'.
  exists names, new_seed, g.
  revert Hrun.
  unfold update_settings, randomizer_settings_ref, on_randomizer.
  unfold mbind, M_mbind, M_bind, get_randomizer, microsecond_nonce, mret, M_mret, raise.
  destruct is_race_seed; simpl; rewrite ?lookup_insert_eq; simpl;
    rewrite ?insert_insert_eq;
    match goal with
    | |- context [set_random_config ?r ?h] =>
        destruct (set_random_config r h) as [what|[r' h']] eqn:Hlib; [done|]
    end; simpl.
  - destruct (settings r') as [l'|] eqn:Hl'; [|done]. simpl.
    destruct (h' !! l') as [s'|] eqn:Hs'; [|done].
    intros [= <- <-]. simpl. exists r', h'.
    split_and!; try done.
    + by exists l', s'.
    + intros Hkeeps. apply Hkeeps in Hlib as [-> Hsettings].
      simpl in Hsettings. rewrite Hsettings in Hl'. injection Hl' as <-.
      rewrite lookup_insert_eq in Hs'. injection Hs' as <-.
      simpl. by rewrite insert_insert_eq.
  - intros [= <- <-]. simpl. exists r', h'. rewrite app_nil_r.
    split_and!; try done.
    intros Hkeeps. by apply Hkeeps in Hlib as [-> ->].
Qed.
End Clone.

Lemma demo_lib_keeps_settings : keeps_settings demo_lib.
Proof. intros r h r' h' [= <- <-]. by split. Qed.

Lemma configure_seed_from_settings_effect_witness :
  exists names new_seed g,
    @read_names demo_types demo_lib (files clone_world) (cwd clone_world)
    = inr names /\
    first_new_seed names (lit "GatoGato") (rng clone_world) = Some (new_seed, g) /\
    new_seed <> lit "GatoGato" /\
    match @configure_seed_from_settings demo_types demo_lib 1%positive true
            clone_world with
    | Return _ w' =>
        rng w' = g /\
        object_at 1%positive w'
        = Some (set_seed new_seed (demo_settings 0%N (lit "GatoGato") 5))
    | _ => False
    end.
Proof.
  destruct (@configure_seed_from_settings demo_types demo_lib 1%positive true
              clone_world) as [nonce w'| |] eqn:Hrun;
    [| vm_compute in Hrun; discriminate Hrun..].
  destruct (@configure_seed_from_settings_effect demo_types demo_lib 1%positive
              true clone_world w' nonce
              (demo_settings 0%N (lit "GatoGato") 5) eq_refl Hrun)
    as (names & new_seed & g & r' & h' & Hnames & Hfirst & Hnew & _ & Hrng & _ & _
        & Hkept).
  destruct (Hkept demo_lib_keeps_settings) as [Hheap _].
  exists names, new_seed, g.
  split; [exact Hnames|]. split; [exact Hfirst|]. split; [exact Hnew|].
  split; [exact Hrng|].
  unfold object_at. rewrite Hheap. apply lookup_insert_eq.
Defined.

(** The statement of C5 fails: a call that returns has changed the seed of
    the object it was given. *)
Lemma configure_seed_from_settings_changes_seed :
  exists nonce w',
    @configure_seed_from_settings demo_types demo_lib 1%positive false clone_world
    = Return nonce w' /\
    object_at 1%positive w' <> object_at 1%positive clone_world.
Proof.
  eexists _, _. split; [vm_compute; reflexivity|].
  vm_compute. intros Heq. discriminate Heq.
Qed.

(** ** The base ROM *)

(** C6.  [get_base_rom] opens the path [ct.sfc] as it is written, so the
    file is looked up from the working directory of the process and
    [BASE_DIR] plays no part: with the ROM in [BASE_DIR] and the process
    started elsewhere, the call ends in [FileNotFoundError]. *)
Theorem get_base_rom_ignores_BASE_DIR :
  (forall (T : RandoTypes) (w : World),
     get_base_rom w
     = match files w !! resolve (cwd w) (lit "ct.sfc") with
       | Some rom => Return rom w
       | None => Raise (FileNotFoundError (lit "ct.sfc")) w
       end) /\
  files clone_world !! (BASE_DIR clone_world ++ lit "/ct.sfc")
    = Some [78; 69; 83]%N /\
  get_base_rom clone_world
    = Raise (FileNotFoundError (lit "ct.sfc")) clone_world.
Proof.
  split; [reflexivity|]. split; vm_compute; reflexivity.
Qed.

(** * Further properties of the methods *)

(** ** The validation helpers *)

(** X1.  With the bounds in order, the result of [clamp] lies between
    them, whatever the value. *)
Theorem clamp_in_range (value lo hi : Z) :
  lo <= hi -> lo <= clamp value lo hi <= hi.
Proof.
  intros Hbounds. unfold clamp, py_max, py_min.
  repeat match goal with
         | |- context [?a <? ?b] => destruct (Z.ltb_spec a b)
         | |- context [?a >? ?b] => destruct (Z.gtb_spec a b)
         end; lia.
Qed.

Lemma clamp_in_range_witness : 0 <= clamp 100 0 7 <= 7.
Proof. apply (clamp_in_range 100 0 7). lia. Defined.

(** X2.  With the bounds crossed, [clamp] gives the lower bound, which is
    then above the upper one. *)
Theorem clamp_crossed_bounds (value lo hi : Z) :
  hi < lo -> clamp value lo hi = lo.
Proof.
  intros Hcrossed. unfold clamp, py_max, py_min.
  repeat match goal with
         | |- context [?a <? ?b] => destruct (Z.ltb_spec a b)
         | |- context [?a >? ?b] => destruct (Z.gtb_spec a b)
         end; lia.
Qed.

Lemma clamp_crossed_bounds_witness : clamp 3 7 0 = 7.
Proof. apply (clamp_crossed_bounds 3 7 0). lia. Defined.

Section NameValidity.
Context {U : Unicode}.



End NameValidity.

(** ** Cosmetic settings and in-game options *)

Section FormProperties.
Context {T : RandoTypes} {L : RandoLib} {U : Unicode}.

Lemma set_heap_id (w : World) (l : ref) (s : Settings) :
  object_at l w = Some s -> set_heap (<[l := s]> (heap w)) w = w.
Proof.
  unfold object_at. intros Hs. destruct w; simpl in *.
  unfold set_heap; simpl. f_equal. by apply insert_id.
Qed.

Lemma updates_update_settings n (l : ref) (f : Settings -> Settings) :
  updates n l f (update_settings l f).
Proof.
  intros w s Hs _. unfold object_at in Hs. unfold update_settings.
  by rewrite Hs.
Qed.

Lemma updates_seq n (l : ref) (f g : Settings -> Settings) (m1 m2 : M unit) :
  updates n l f m1 -> updates n l g m2 -> keeps_slots f ->
  updates n l (fun s => g (f s)) (m1 ;; m2).
Proof.
  intros H1 H2 Hkeep w s Hs Hslots.
  unfold mbind, M_mbind, M_bind. rewrite (H1 w s Hs Hslots).
  rewrite (H2 _ (f s)).
  - simpl. by rewrite insert_insert_eq.
  - unfold object_at. simpl. apply lookup_insert_eq.
  - unfold has_slots in *. by rewrite Hkeep.
Qed.

Lemma updates_skip n (l : ref) : updates n l (fun s => s) (mret tt).
Proof. intros w s Hs _. by rewrite set_heap_id. Qed.

Lemma updates_when_given {A} n (l : ref) (v : option A)
    (f : A -> Settings -> Settings) (assign : A -> M unit) :
  (forall a, updates n l (f a) (assign a)) ->
  updates n l (given v f) (when_given v assign).
Proof. intros Hassign. destruct v as [a|]; [apply Hassign | apply updates_skip]. Qed.

Lemma updates_when_nonzero n (l : ref) (v : option Z)
    (f : Z -> Settings -> Settings) (assign : Z -> M unit) :
  (forall a, updates n l (f a) (assign a)) ->
  updates n l (nonzero v f) (when_nonzero v assign).
Proof.
  intros Hassign. unfold nonzero, when_nonzero.
  destruct v as [a|]; [|apply updates_skip].
  destruct (bool_decide (a = 0)); [apply updates_skip | apply Hassign].
Qed.

Lemma updates_assign_name n (l : ref) (i : nat) (v : str) :
  (i < n)%nat -> updates n l (set_name i v) (assign_name l i v).
Proof.
  intros Hi w s Hs Hslots. unfold assign_name, read_settings.
  unfold mbind, M_mbind, M_bind. unfold object_at in Hs. rewrite Hs.
  unfold has_slots in Hslots. rewrite decide_True by lia.
  unfold update_settings. by rewrite Hs.
Qed.

Lemma updates_assign_ctoption n (l : ref) (f : CTOptions -> CTOptions) :
  updates n l (set_option f) (assign_ctoption l f).
Proof. apply updates_update_settings. Qed.

Lemma keeps_slots_set_name (i : nat) (v : str) : keeps_slots (set_name i v).
Proof. intros s. unfold set_name. simpl. by rewrite length_insert. Qed.

Lemma keeps_slots_given {A} (v : option A) (f : A -> Settings -> Settings) :
  (forall a, keeps_slots (f a)) -> keeps_slots (given v f).
Proof. intros Hf s. destruct v; simpl; [apply Hf | done]. Qed.

Lemma keeps_slots_nonzero (v : option Z) (f : Z -> Settings -> Settings) :
  (forall a, keeps_slots (f a)) -> keeps_slots (nonzero v f).
Proof.
  intros Hf s. unfold nonzero. destruct v as [a|]; [|done].
  destruct (bool_decide (a = 0)); [done | apply Hf].
Qed.

Lemma keeps_slots_set_option (f : CTOptions -> CTOptions) :
  keeps_slots (set_option f).
Proof. by intros s. Qed.

Lemma keeps_slots_set_cosmetic_flags (v : flags) :
  keeps_slots (set_cosmetic_flags v).
Proof. by intros s. Qed.

Lemma cosmetic_flags_of_form_ok (form : RomForm) :
  cosmetic_flags_of_form form = Ok (form_cosmetic_flags form).
Proof. reflexivity. Qed.

Ltac keep_slots :=
  first [ apply keeps_slots_set_name
        | apply keeps_slots_set_cosmetic_flags
        | apply keeps_slots_given; intros; apply keeps_slots_set_option
        | apply keeps_slots_nonzero; intros; apply keeps_slots_set_option ].

Ltac updates_step :=
  first [ apply updates_update_settings
        | apply updates_assign_name; lia
        | apply updates_when_given; intros; apply updates_assign_ctoption
        | apply updates_when_nonzero; intros; apply updates_assign_ctoption ].

Lemma apply_rom_form_updates (l : ref) (form : RomForm) :
  updates 8 l (form_settings form) (apply_rom_form l form).
Proof.
  unfold apply_rom_form. rewrite cosmetic_flags_of_form_ok.
  intros w s Hs Hslots.
  change (lift (Ok (form_cosmetic_flags form)) ≫= ?k)
    with (k (form_cosmetic_flags form)).
  cbv beta.
  match goal with
  | |- ?m w = _ => eassert (Hupd : updates 8 l _ m)
  end.
  { repeat (eapply updates_seq; [updates_step | | keep_slots]).
    updates_step. }
  by rewrite (Hupd w s Hs Hslots).
Qed.

Lemma fails_assign_name (n : nat) (l : ref) (v : str) :
  fails_at n l IndexError (assign_name l n v).
Proof.
  intros w s Hs Hlen. unfold assign_name, read_settings.
  unfold mbind, M_mbind, M_bind. unfold object_at in Hs. rewrite Hs.
  rewrite decide_False by lia. by eexists.
Qed.

Lemma fails_seq_now (n : nat) (l : ref) (e : exn) (m1 m2 : M unit) :
  fails_at n l e m1 -> fails_at n l e (m1 ;; m2).
Proof.
  intros H1 w s Hs Hlen. destruct (H1 w s Hs Hlen) as [w' Hrun].
  exists w'. unfold mbind, M_mbind, M_bind. by rewrite Hrun.
Qed.

Lemma fails_seq_later (n : nat) (l : ref) (e : exn) f (m1 m2 : M unit) :
  updates n l f m1 -> keeps_slots f -> fails_at n l e m2 ->
  fails_at n l e (m1 ;; m2).
Proof.
  intros H1 Hkeep H2 w s Hs Hlen.
  unfold mbind, M_mbind, M_bind. rewrite (H1 w s Hs); [|unfold has_slots; lia].
  apply (H2 _ (f s)).
  - unfold object_at. simpl. apply lookup_insert_eq.
  - by rewrite Hkeep.
Qed.

Lemma apply_rom_form_fails (n : nat) (l : ref) (form : RomForm) :
  (n < 8)%nat -> fails_at n l IndexError (apply_rom_form l form).
Proof.
  intros Hn. unfold apply_rom_form. rewrite cosmetic_flags_of_form_ok.
  change (lift (Ok (form_cosmetic_flags form)) ≫= ?k)
    with (k (form_cosmetic_flags form)).
  cbv beta.
  do 8 (destruct n as [|n];
        [ repeat first
            [ apply fails_seq_now; apply fails_assign_name
            | eapply fails_seq_later; [updates_step | keep_slots | ] ] | ]).
  lia.
Qed.

Lemma given_keeps {A B} (P : Settings -> B) (v : option A)
    (f : A -> Settings -> Settings) (s : Settings) :
  (forall a s, P (f a s) = P s) -> P (given v f s) = P s.
Proof. intros Hf. destruct v; simpl; [apply Hf | done]. Qed.

Lemma nonzero_keeps {B} (P : Settings -> B) (v : option Z)
    (f : Z -> Settings -> Settings) (s : Settings) :
  (forall a s, P (f a s) = P s) -> P (nonzero v f s) = P s.
Proof.
  intros Hf. unfold nonzero. destruct v as [a|]; [|done].
  destruct (bool_decide (a = 0)); [done | apply Hf].
Qed.

(** The run of [set_settings_and_config] with a form, for an object with
    its eight name slots. *)
Lemma set_settings_and_config_run
    (l : ref) (c : RandoConfig) (form : RomForm) (w : World) (s : Settings) :
  object_at l w = Some s -> has_names s ->
  set_settings_and_config l c (Some form) w
  = Return tt
      (set_self_randomizer
         (set_config (Some c) (set_settings (Some l) (self_randomizer w)))
         (set_heap (<[l := form_settings form s]> (heap w)) w)).
Proof.
  intros Hs Hnames. unfold set_settings_and_config.
  unfold mbind at 1, M_mbind at 1, M_bind at 1.
  by rewrite (apply_rom_form_updates l form w s Hs Hnames).
Qed.

Lemma set_settings_and_config_inv
    (l : ref) (c : RandoConfig) (form : RomForm) (w w' : World) (s : Settings) :
  set_settings_and_config l c (Some form) w = Return tt w' ->
  object_at l w = Some s ->
  object_at l w' = Some (form_settings form s) /\ has_names s.
Proof.
  intros Hrun Hs.
  destruct (decide (8 <= length (names (char_settings s)))%nat) as [Hnames|Hfew].
  - rewrite (set_settings_and_config_run l c form w s Hs Hnames) in Hrun.
    injection Hrun as <-. split; [|done].
    unfold object_at. simpl. apply lookup_insert_eq.
  - exfalso.
    assert (Hfails : exists w1, apply_rom_form l form w = Raise IndexError w1)
      by (eapply (apply_rom_form_fails (length (names (char_settings s))));
          [lia | exact Hs | done]).
    destruct Hfails as [w1 Hfails]. revert Hrun.
    unfold set_settings_and_config.
    unfold mbind at 1, M_mbind at 1, M_bind at 1. by rewrite Hfails.
Qed.

Ltac strip_options P :=
  unfold form_settings; cbv zeta;
  rewrite (given_keeps P) by done;
  rewrite !(nonzero_keeps P) by done;
  rewrite !(given_keeps P) by done.

Lemma form_settings_frame (form : RomForm) (s : Settings) :
  gameflags (form_settings form s) = gameflags s /\
  seed (form_settings form s) = seed s /\
  bucket_settings (form_settings form s) = bucket_settings s /\
  settings_rest (form_settings form s) = settings_rest s.
Proof.
  repeat split.
  - by strip_options gameflags.
  - by strip_options seed.
  - by strip_options bucket_settings.
  - by strip_options settings_rest.
Qed.

Lemma form_settings_names (form : RomForm) (s : Settings) :
  has_names s ->
  names (char_settings (form_settings form s))
  = form_names form ++ drop 8 (names (char_settings s)).
Proof.
  unfold has_names, has_slots. intros Hnames.
  strip_options (fun s => names (char_settings s)).
  simpl. destruct (names (char_settings s)) as [|? [|? [|? [|? [|? [|? [|? [|? ?]]]]]]]];
    simpl in Hnames; try lia.
  reflexivity.
Qed.

Lemma form_settings_cosmetic_flags (form : RomForm) (s : Settings) :
  cosmetic_flags (form_settings form s) = form_cosmetic_flags form.
Proof. by strip_options cosmetic_flags. Qed.

Ltac strip_kept P :=
  repeat first [ rewrite (given_keeps P) by done
               | rewrite (nonzero_keeps P) by done ].

Lemma form_settings_speeds (form : RomForm) (s : Settings) :
  let stored (v : option Z) (old : Z) :=
    match v with
    | Some a => if bool_decide (a = 0) then old else clamp (a - 1) 0 7
    | None => old
    end in
  battle_speed (ctoptions (form_settings form s))
    = stored (cd_battle_speed form) (battle_speed (ctoptions s)) /\
  menu_background (ctoptions (form_settings form s))
    = stored (cd_background_selection form) (menu_background (ctoptions s)) /\
  battle_msg_speed (ctoptions (form_settings form s))
    = stored (cd_battle_message_speed form) (battle_msg_speed (ctoptions s)).
Proof.
  cbv zeta. unfold form_settings. cbv zeta. repeat split.
  - strip_kept (fun s => battle_speed (ctoptions s)).
    unfold nonzero at 1. destruct (cd_battle_speed form) as [a|];
      [destruct (bool_decide (a = 0))|]; simpl;
      by strip_kept (fun s => battle_speed (ctoptions s)).
  - strip_kept (fun s => menu_background (ctoptions s)).
    unfold nonzero at 1. destruct (cd_background_selection form) as [a|];
      [destruct (bool_decide (a = 0))|]; simpl;
      by strip_kept (fun s => menu_background (ctoptions s)).
  - strip_kept (fun s => battle_msg_speed (ctoptions s)).
    unfold nonzero at 1. destruct (cd_battle_message_speed form) as [a|];
      [destruct (bool_decide (a = 0))|]; simpl;
      by strip_kept (fun s => battle_msg_speed (ctoptions s)).
Qed.

Lemma form_settings_given (form : RomForm) (s : Settings) :
  battle_gauge_style (ctoptions (form_settings form s))
    = match cd_battle_gauge_style form with
      | Some v => clamp v 0 2
      | None => battle_gauge_style (ctoptions s)
      end /\
  stereo_audio (ctoptions (form_settings form s))
    = default (stereo_audio (ctoptions s)) (cd_stereo_audio form) /\
  save_menu_cursor (ctoptions (form_settings form s))
    = default (save_menu_cursor (ctoptions s)) (cd_save_menu_cursor form) /\
  save_battle_cursor (ctoptions (form_settings form s))
    = default (save_battle_cursor (ctoptions s)) (cd_save_battle_cursor form) /\
  skill_item_info (ctoptions (form_settings form s))
    = default (skill_item_info (ctoptions s)) (cd_skill_item_info form) /\
  consistent_paging (ctoptions (form_settings form s))
    = default (consistent_paging (ctoptions s)) (cd_consistent_paging form).
Proof.
  unfold form_settings. cbv zeta. repeat split.
  - unfold given at 1. destruct (cd_battle_gauge_style form); simpl;
      by strip_kept (fun s => battle_gauge_style (ctoptions s)).
  - strip_kept (fun s => stereo_audio (ctoptions s)).
    unfold given at 1. destruct (cd_stereo_audio form); simpl;
      by strip_kept (fun s => stereo_audio (ctoptions s)).
  - strip_kept (fun s => save_menu_cursor (ctoptions s)).
    unfold given at 1. destruct (cd_save_menu_cursor form); simpl;
      by strip_kept (fun s => save_menu_cursor (ctoptions s)).
  - strip_kept (fun s => save_battle_cursor (ctoptions s)).
    unfold given at 1. destruct (cd_save_battle_cursor form); simpl;
      by strip_kept (fun s => save_battle_cursor (ctoptions s)).
  - strip_kept (fun s => skill_item_info (ctoptions s)).
    unfold given at 1. destruct (cd_skill_item_info form); simpl;
      by strip_kept (fun s => skill_item_info (ctoptions s)).
  - strip_kept (fun s => consistent_paging (ctoptions s)).
    unfold given at 1. destruct (cd_consistent_paging form); simpl;
      by strip_kept (fun s => consistent_paging (ctoptions s)).
Qed.

(** X4.  With a form, [set_settings_and_config] needs eight name slots in
    the settings object: with fewer it raises [IndexError]. *)
Theorem set_settings_and_config_few_names
    (l : ref) (c : RandoConfig) (form : RomForm) (w : World) (s : Settings) :
  object_at l w = Some s ->
  (length (names (char_settings s)) < 8)%nat ->
  exists w', set_settings_and_config l c (Some form) w = Raise IndexError w'.
Proof.
  intros Hs Hfew.
  destruct (apply_rom_form_fails (length (names (char_settings s))) l form
              Hfew w s Hs eq_refl) as [w' Hfails].
  exists w'. unfold set_settings_and_config.
  unfold mbind at 1, M_mbind at 1, M_bind at 1. by rewrite Hfails.
Qed.

(** X5.  With a form and a settings object that has its eight name slots,
    [set_settings_and_config] returns.  The game flags, the seed and the
    bucket settings of the object are as before, no other object has
    changed, and the randomizer holds the object and the configuration. *)
Theorem set_settings_and_config_with_form
    (l : ref) (c : RandoConfig) (form : RomForm) (w : World) (s : Settings) :
  object_at l w = Some s -> has_names s ->
  exists w' s',
    set_settings_and_config l c (Some form) w = Return tt w' /\
    object_at l w' = Some s' /\
    gameflags s' = gameflags s /\ seed s' = seed s /\
    bucket_settings s' = bucket_settings s /\
    settings_rest s' = settings_rest s /\
    (forall l', l' <> l -> object_at l' w' = object_at l' w) /\
    settings (self_randomizer w') = Some l /\
    config (self_randomizer w') = Some c.
Proof.
  intros Hs Hnames. eexists _, (form_settings form s).
  split; [by apply set_settings_and_config_run|].
  destruct (form_settings_frame form s) as (Hgf & Hseed & Hbucket & Hrest).
  unfold object_at. simpl. rewrite lookup_insert_eq.
  repeat split; try done.
  intros l' Hne. by rewrite lookup_insert_ne.
Qed.

(** X6.  After a call with a form, the first eight names of the object are
    the validated names of the form, in the order Crono, Marle, Lucca, Robo,
    Frog, Ayla, Magus, Epoch; further names are as before. *)
Theorem set_settings_and_config_names
    (l : ref) (c : RandoConfig) (form : RomForm) (w w' : World) (s : Settings) :
  set_settings_and_config l c (Some form) w = Return tt w' ->
  object_at l w = Some s ->
  exists s', object_at l w' = Some s' /\
             names (char_settings s')
             = form_names form ++ drop 8 (names (char_settings s)).
Proof.
  intros Hrun Hs.
  destruct (set_settings_and_config_inv l c form w w' s Hrun Hs) as [Hs' Hnames].
  eexists. split; [exact Hs'|]. by apply form_settings_names.
Qed.

(** X7.  Battle speed, menu background and battle message speed are set
    only when the form gives a number other than 0, and then to that
    number less one, brought into the range 0 to 7; otherwise they stay. *)
Theorem set_settings_and_config_speeds
    (l : ref) (c : RandoConfig) (form : RomForm) (w w' : World) (s : Settings) :
  set_settings_and_config l c (Some form) w = Return tt w' ->
  object_at l w = Some s ->
  exists s',
    object_at l w' = Some s' /\
    kept_or_clamped (cd_battle_speed form)
      (battle_speed (ctoptions s)) (battle_speed (ctoptions s')) /\
    kept_or_clamped (cd_background_selection form)
      (menu_background (ctoptions s)) (menu_background (ctoptions s')) /\
    kept_or_clamped (cd_battle_message_speed form)
      (battle_msg_speed (ctoptions s)) (battle_msg_speed (ctoptions s')).
Proof.
  intros Hrun Hs.
  destruct (set_settings_and_config_inv l c form w w' s Hrun Hs) as [Hs' _].
  eexists. split; [exact Hs'|].
  destruct (form_settings_speeds form s) as (-> & -> & ->).
  unfold kept_or_clamped.
  repeat split;
    match goal with
    | |- match ?v with _ => _ end => destruct v as [a|]; [|done]
    end;
    destruct (bool_decide (a = 0)); try done;
    (split; [done | by apply clamp_in_range]).
Qed.

(** X8.  The battle gauge style is set whenever the form gives a number,
    0 included, and is brought into the range 0 to 2; the five switches
    are set when the form gives a value and stay otherwise. *)
Theorem set_settings_and_config_given
    (l : ref) (c : RandoConfig) (form : RomForm) (w w' : World) (s : Settings) :
  set_settings_and_config l c (Some form) w = Return tt w' ->
  object_at l w = Some s ->
  exists s',
    object_at l w' = Some s' /\
    kept_or_gauge (cd_battle_gauge_style form)
      (battle_gauge_style (ctoptions s)) (battle_gauge_style (ctoptions s')) /\
    stereo_audio (ctoptions s')
      = default (stereo_audio (ctoptions s)) (cd_stereo_audio form) /\
    save_menu_cursor (ctoptions s')
      = default (save_menu_cursor (ctoptions s)) (cd_save_menu_cursor form) /\
    save_battle_cursor (ctoptions s')
      = default (save_battle_cursor (ctoptions s)) (cd_save_battle_cursor form) /\
    skill_item_info (ctoptions s')
      = default (skill_item_info (ctoptions s)) (cd_skill_item_info form) /\
    consistent_paging (ctoptions s')
      = default (consistent_paging (ctoptions s)) (cd_consistent_paging form).
Proof.
  intros Hrun Hs.
  destruct (set_settings_and_config_inv l c form w w' s Hrun Hs) as [Hs' _].
  eexists. split; [exact Hs'|].
  destruct (form_settings_given form s) as (-> & -> & -> & -> & -> & ->).
  repeat split. unfold kept_or_gauge.
  destruct (cd_battle_gauge_style form); [|done].
  split; [done | by apply clamp_in_range].
Qed.

Lemma flag_in_lor_r (member fl : flags) : flag_in member (N.lor fl member) = true.
Proof.
  unfold flag_in. apply N.eqb_eq. apply N.bits_inj. intros i.
  rewrite N.land_spec, N.lor_spec. by destruct (N.testbit member i), (N.testbit fl i).
Qed.

Lemma flag_in_lor_l (member fl fl' : flags) :
  flag_in member fl = true -> flag_in member (N.lor fl fl') = true.
Proof.
  unfold flag_in. rewrite !N.eqb_eq. intros Hin. apply N.bits_inj. intros i.
  rewrite N.land_spec, N.lor_spec.
  apply (f_equal (fun x => N.testbit x i)) in Hin. rewrite N.land_spec in Hin.
  by destruct (N.testbit member i), (N.testbit fl i), (N.testbit fl' i).
Qed.

(** X9.  The cosmetic flags of the object after a call with a form are
    those of the check boxes of the form and nothing of what the object
    had: they are the bitwise or, from the empty set, of the flags of the
    boxes that are set, so a bit is in them when, and only when, it is in
    the flag of a box that is set.  So the flag of every box that is set is
    in them, and with no box set they are empty. *)
Theorem set_settings_and_config_cosmetic_flags
    (l : ref) (c : RandoConfig) (form : RomForm) (w w' : World) (s : Settings) :
  set_settings_and_config l c (Some form) w = Return tt w' ->
  object_at l w = Some s ->
  exists s',
    object_at l w' = Some s' /\
    cosmetic_flags s' = form_cosmetic_flags form /\
    (forall i,
       N.testbit (cosmetic_flags s') i
       = (cd_reduce_flashes form && N.testbit (CF_value REDUCE_FLASH) i)
         || (cd_zenan_alt_battle_music form
             && N.testbit (CF_value ZENAN_ALT_MUSIC) i)
         || (cd_death_peak_alt_music form
             && N.testbit (CF_value DEATH_PEAK_ALT_MUSIC) i)
         || (cd_quiet_mode form && N.testbit (CF_value QUIET_MODE) i)
         || (cd_auto_run form && N.testbit (CF_value AUTORUN) i)) /\
    (cd_reduce_flashes form = true ->
     flag_in (CF_value REDUCE_FLASH) (cosmetic_flags s') = true) /\
    (cd_zenan_alt_battle_music form = true ->
     flag_in (CF_value ZENAN_ALT_MUSIC) (cosmetic_flags s') = true) /\
    (cd_death_peak_alt_music form = true ->
     flag_in (CF_value DEATH_PEAK_ALT_MUSIC) (cosmetic_flags s') = true) /\
    (cd_quiet_mode form = true ->
     flag_in (CF_value QUIET_MODE) (cosmetic_flags s') = true) /\
    (cd_auto_run form = true ->
     flag_in (CF_value AUTORUN) (cosmetic_flags s') = true) /\
    (cd_reduce_flashes form = false ->
     cd_zenan_alt_battle_music form = false ->
     cd_death_peak_alt_music form = false ->
     cd_quiet_mode form = false ->
     cd_auto_run form = false ->
     cosmetic_flags s' = 0%N).
Proof.
  intros Hrun Hs.
  destruct (set_settings_and_config_inv l c form w w' s Hrun Hs) as [Hs' _].
  eexists. split; [exact Hs'|].
  rewrite form_settings_cosmetic_flags.
  split; [reflexivity|].
  unfold form_cosmetic_flags. simpl. split.
  { intros i.
    destruct (cd_reduce_flashes form), (cd_zenan_alt_battle_music form),
      (cd_death_peak_alt_music form), (cd_quiet_mode form), (cd_auto_run form);
      simpl; rewrite ?N.lor_spec, ?N.bits_0; simpl;
      repeat match goal with
             | |- context [N.testbit ?a i] => destruct (N.testbit a i)
             end; reflexivity. }
  repeat split; intros;
    repeat match goal with H : _ form = _ |- _ => rewrite H end;
    try reflexivity;
    repeat match goal with |- context [if ?b then _ else _] => destruct b end;
    repeat first [ apply flag_in_lor_r | apply flag_in_lor_l ].
Qed.

(** X10.  Once [set_settings_and_config] has returned, with a form or
    without, [get_settings] gives the reference that was passed and
    [get_config] the configuration, and neither changes anything. *)
Theorem getters_after_set_settings_and_config
    (l : ref) (c : RandoConfig) (form : option RomForm) (w w' : World) :
  set_settings_and_config l c form w = Return tt w' ->
  get_settings w' = Return (Some l) w' /\ get_config w' = Return (Some c) w'.
Proof.
  intros Hrun.
  assert (Hbound : settings (self_randomizer w') = Some l /\
                   config (self_randomizer w') = Some c).
  { destruct form as [form|].
    - destruct (object_at l w) as [s|] eqn:Hs.
      + destruct (set_settings_and_config_inv l c form w w' s Hrun Hs) as [_ Hnames].
        rewrite (set_settings_and_config_run l c form w s Hs Hnames) in Hrun.
        by injection Hrun as <-.
      + exfalso. revert Hrun. unfold set_settings_and_config, apply_rom_form.
        rewrite cosmetic_flags_of_form_ok.
        unfold mbind, M_mbind, M_bind, lift, update_settings.
        unfold object_at in Hs. by rewrite Hs.
    - by injection Hrun as <-. }
  destruct Hbound as [Hsettings Hconfig].
  unfold get_settings, get_config, get_randomizer.
  unfold mbind, M_mbind, M_bind, mret, M_mret.
  by rewrite Hsettings, Hconfig.
Qed.

End FormProperties.

Lemma set_settings_and_config_few_names_witness :
  exists w',
    @set_settings_and_config demo_types demo_unicode 1%positive demo_config
      (Some demo_rom_form) (demo_world short_settings [])
    = Raise IndexError w'.
Proof.
  apply (@set_settings_and_config_few_names demo_types demo_unicode 1%positive
           demo_config demo_rom_form (demo_world short_settings [])
           short_settings).
  - reflexivity.
  - simpl. lia.
Defined.

Lemma form_world_has_names :
  @has_names demo_types (demo_settings 7%N (lit "GatoToma") 5).
Proof. unfold has_names, has_slots. simpl. lia. Qed.

Lemma form_world_run :
  @set_settings_and_config demo_types demo_unicode 1%positive demo_config
    (Some demo_rom_form) form_world
  = Return tt form_world_after.
Proof. vm_compute. reflexivity. Qed.

Lemma set_settings_and_config_with_form_witness :
  exists w' s',
    @set_settings_and_config demo_types demo_unicode 1%positive demo_config
      (Some demo_rom_form) form_world = Return tt w' /\
    object_at 1%positive w' = Some s' /\
    gameflags s' = 7%N /\ seed s' = lit "GatoToma".
Proof.
  destruct (@set_settings_and_config_with_form demo_types demo_unicode
              1%positive demo_config demo_rom_form form_world
              (demo_settings 7%N (lit "GatoToma") 5) eq_refl
              form_world_has_names)
    as (w' & s' & Hrun & Hs' & Hgf & Hseed & _).
  by exists w', s'.
Defined.

Lemma set_settings_and_config_names_witness :
  exists s',
    object_at 1%positive form_world_after = Some s' /\
    names (char_settings s')
    = [lit "Hero"; lit "Marle"; lit "Lucca"; lit "Robo"; lit "Glenn";
       lit "Ayla"; lit "Magus"; lit "Epoch"].
Proof.
  apply (@set_settings_and_config_names demo_types demo_unicode 1%positive
           demo_config demo_rom_form form_world form_world_after
           (demo_settings 7%N (lit "GatoToma") 5) form_world_run eq_refl).
Defined.

Lemma set_settings_and_config_speeds_witness :
  exists s',
    object_at 1%positive form_world_after = Some s' /\
    kept_or_clamped (Some 12) 4 (battle_speed (ctoptions s')) /\
    kept_or_clamped (Some 0) 0 (menu_background (ctoptions s')) /\
    kept_or_clamped None 4 (battle_msg_speed (ctoptions s')).
Proof.
  apply (@set_settings_and_config_speeds demo_types demo_unicode 1%positive
           demo_config demo_rom_form form_world form_world_after
           (demo_settings 7%N (lit "GatoToma") 5) form_world_run eq_refl).
Defined.

Lemma set_settings_and_config_given_witness :
  exists s',
    object_at 1%positive form_world_after = Some s' /\
    battle_gauge_style (ctoptions s') = 0 /\
    stereo_audio (ctoptions s') = true.
Proof.
  destruct (@set_settings_and_config_given demo_types demo_unicode 1%positive
              demo_config demo_rom_form form_world form_world_after
              (demo_settings 7%N (lit "GatoToma") 5) form_world_run eq_refl)
    as (s' & Hs' & [Hgauge _] & Hstereo & _).
  exists s'. split; [exact Hs'|]. split; [exact Hgauge | exact Hstereo].
Defined.

Lemma set_settings_and_config_cosmetic_flags_witness :
  exists s',
    object_at 1%positive form_world_after = Some s' /\
    cosmetic_flags s' = @form_cosmetic_flags demo_types demo_rom_form /\
    flag_in (@CF_value demo_types REDUCE_FLASH) (cosmetic_flags s') = true /\
    flag_in (@CF_value demo_types AUTORUN) (cosmetic_flags s') = true.
Proof.
  destruct (@set_settings_and_config_cosmetic_flags demo_types demo_unicode
              1%positive demo_config demo_rom_form form_world form_world_after
              (demo_settings 7%N (lit "GatoToma") 5) form_world_run eq_refl)
    as (s' & Hs' & Hflags & _ & Hreduce & _ & _ & _ & Hauto & _).
  exists s'. split; [exact Hs'|]. split; [exact Hflags|].
  split; [by apply Hreduce | by apply Hauto].
Defined.

Lemma getters_after_set_settings_and_config_witness :
  @get_settings demo_types form_world_after
    = Return (Some 1%positive) form_world_after /\
  @get_config demo_types form_world_after
    = Return (Some demo_config) form_world_after.
Proof.
  apply (@getters_after_set_settings_and_config demo_types demo_unicode
           1%positive demo_config (Some demo_rom_form) form_world
           form_world_after form_world_run).
Defined.

(** ** Seeds *)

Section SeedProperties.
Context {T : RandoTypes} {L : RandoLib}.

Lemma random_choice_run {A} (xs : list A) (w : World) (i : nat)
    (g : list nat) (x : A) :
  rng w = i :: g -> xs !! (i mod length xs)%nat = Some x ->
  random_choice xs w = Return x (set_rng g w).
Proof.
  intros Hrng Hx. unfold random_choice.
  destruct xs as [|x0 xs]; [done|]. by rewrite Hrng, Hx.
Qed.

(** X11.  With a list of names that is not empty, [get_random_seed] makes
    two draws and returns two names of the list, joined; nothing but the
    generator has changed. *)
Theorem get_random_seed_two_names
    (w : World) (names : list str) (i j : nat) (g : list nat) :
  read_names (files w) (cwd w) = inr names ->
  names <> [] ->
  rng w = i :: j :: g ->
  exists a b,
    a ∈ names /\ b ∈ names /\
    get_random_seed w = Return (a ++ b) (set_rng g w).
Proof.
  intros Hnames Hne Hrng.
  assert (Hlen : (0 < length names)%nat) by (destruct names; [done | simpl; lia]).
  destruct (lookup_lt_is_Some_2 names (i mod length names)) as [a Ha];
    [apply Nat.mod_upper_bound; lia|].
  destruct (lookup_lt_is_Some_2 names (j mod length names)) as [b Hb];
    [apply Nat.mod_upper_bound; lia|].
  exists a, b. split; [by eapply list_elem_of_lookup_2|].
  split; [by eapply list_elem_of_lookup_2|].
  unfold get_random_seed, get_world.
  unfold mbind, M_mbind, M_bind, mret, M_mret, lift. rewrite Hnames.
  cbv beta iota. unfold of_foreign.
  rewrite (random_choice_run names w i (j :: g) a Hrng Ha).
  by rewrite (random_choice_run names (set_rng (j :: g) w) j g b eq_refl Hb).
Qed.

(** X12.  With an empty list of names, [get_random_seed] raises
    [IndexError] and draws nothing. *)
Theorem get_random_seed_no_names (w : World) :
  read_names (files w) (cwd w) = inr [] ->
  get_random_seed w = Raise IndexError w.
Proof.
  intros Hnames. unfold get_random_seed, get_world.
  unfold mbind, M_mbind, M_bind, lift. by rewrite Hnames.
Qed.

(** X13.  The nonce [configure_seed_from_settings] returns is the
    microsecond of the clock as a string for a race seed and the empty
    string otherwise. *)
Theorem configure_seed_from_settings_nonce
    (l : ref) (is_race_seed : bool) (w w' : World) (nonce : str) :
  configure_seed_from_settings l is_race_seed w = Return nonce w' ->
  nonce = if is_race_seed then str_of_N (now_microsecond w) else [].
Proof.
  unfold configure_seed_from_settings.
  unfold mbind at 1, M_mbind at 1, M_bind at 1, read_settings at 1.
  destruct (heap w !! l) as [s|] eqn:Hs; [|done].
  destruct (flag_in (GF_value MYSTERY) (gameflags s)); [done|].
  unfold mbind, M_mbind, M_bind, get_randomizer, put_randomizer, read_settings,
    get_world.
  cbn -[draw_new_seed]. rewrite Hs.
  match goal with
  | |- context [draw_new_seed ?f ?a ?b ?w1] =>
      destruct (draw_new_seed f a b w1) as [new_seed w2| |] eqn:Hdraw;
        [|done|done]
  end.
  apply draw_new_seed_frame in Hdraw as [_ Hw2].
  unfold update_settings, randomizer_settings_ref, on_randomizer.
  unfold mbind, M_mbind, M_bind, get_randomizer, microsecond_nonce, mret,
    M_mret, raise.
  destruct Hw2 as [[g ->]| ->]; simpl; rewrite Hs;
    destruct is_race_seed; simpl;
    rewrite ?lookup_insert_eq; simpl;
    match goal with
    | |- context [set_random_config ?r ?h] =>
        destruct (set_random_config r h) as [what|[r' h']]; [done|]
    end; simpl;
    repeat match goal with
           | |- context [match ?x with _ => _ end] => destruct x; try done
           end;
    by intros [= <- _].
Qed.

Lemma draw_new_seed_one_name (n : str) (fuel : nat) :
  forall w : World,
    read_names (files w) (cwd w) = inr [n] ->
    draw_new_seed fuel (n ++ n) (n ++ n) w = OutOfFuel.
Proof.
  induction fuel as [|fuel IH]; intros w Hnames; simpl;
    rewrite bool_decide_eq_true_2 by done; [done|].
  unfold mbind at 1, M_mbind at 1, M_bind at 1.
  unfold get_random_seed, get_world.
  unfold mbind, M_mbind, M_bind, mret, M_mret, lift. rewrite Hnames.
  cbv beta iota. unfold of_foreign.
  destruct (rng w) as [|i [|j g]] eqn:Hrng.
  - unfold random_choice. by rewrite Hrng.
  - rewrite (random_choice_run [n] w i [] n Hrng)
      by (by rewrite Nat.mod_1_r).
    unfold random_choice. simpl. done.
  - rewrite (random_choice_run [n] w i (j :: g) n Hrng)
      by (by rewrite Nat.mod_1_r).
    rewrite (random_choice_run [n] (set_rng (j :: g) w) j g n eq_refl)
      by (by rewrite Nat.mod_1_r).
    by apply IH.
Qed.

(** X14.  When the list of names has one name and the seed of the object
    is that name twice, the only seed that can be drawn, the loop of
    [configure_seed_from_settings] never finds a new seed: the call does
    not return, however many draws it is given. *)
Theorem configure_seed_from_settings_no_other_seed
    (l : ref) (is_race_seed : bool) (w : World) (s : Settings) (n : str) :
  object_at l w = Some s ->
  flag_in (GF_value MYSTERY) (gameflags s) = false ->
  read_names (files w) (cwd w) = inr [n] ->
  seed s = n ++ n ->
  configure_seed_from_settings l is_race_seed w = OutOfFuel.
Proof.
  unfold object_at. intros Hs Hflag Hnames Hseed.
  unfold configure_seed_from_settings.
  unfold mbind at 1, M_mbind at 1, M_bind at 1, read_settings at 1.
  rewrite Hs, Hflag.
  unfold mbind, M_mbind, M_bind, get_randomizer, put_randomizer, read_settings,
    get_world.
  cbn -[draw_new_seed]. rewrite Hs, Hseed.
  by rewrite draw_new_seed_one_name.
Qed.

End SeedProperties.

Lemma get_random_seed_two_names_witness :
  exists a b,
    a ∈ [lit "Gato"; lit "Nizbel"; lit "Toma"] /\
    b ∈ [lit "Gato"; lit "Nizbel"; lit "Toma"] /\
    @get_random_seed demo_types demo_lib clone_world
    = Return (a ++ b) (set_rng [1; 2]%nat clone_world).
Proof.
  apply (@get_random_seed_two_names demo_types demo_lib clone_world
           [lit "Gato"; lit "Nizbel"; lit "Toma"] 0%nat 0%nat [1; 2]%nat).
  - reflexivity.
  - discriminate.
  - reflexivity.
Defined.

Lemma get_random_seed_no_names_witness :
  @get_random_seed demo_types (lib_with_names []) clone_world
  = Raise IndexError clone_world.
Proof.
  apply (@get_random_seed_no_names demo_types (lib_with_names []) clone_world).
  reflexivity.
Defined.

Lemma clone_world_run :
  exists w',
    @configure_seed_from_settings demo_types demo_lib 1%positive true clone_world
    = Return (lit "123456") w'.
Proof. eexists. vm_compute. reflexivity. Qed.

Lemma configure_seed_from_settings_nonce_witness :
  lit "123456" = str_of_N (@now_microsecond demo_types clone_world).
Proof.
  destruct clone_world_run as [w' Hrun].
  apply (@configure_seed_from_settings_nonce demo_types demo_lib 1%positive
           true clone_world w' (lit "123456") Hrun).
Defined.

Lemma configure_seed_from_settings_no_other_seed_witness :
  @configure_seed_from_settings demo_types (lib_with_names [lit "Gato"])
    1%positive false clone_world
  = OutOfFuel.
Proof.
  apply (@configure_seed_from_settings_no_other_seed demo_types
           (lib_with_names [lit "Gato"]) 1%positive false clone_world
           (demo_settings 0%N (lit "GatoGato") 5) (lit "Gato"));
    reflexivity.
Defined.
